(** * buildcc: a self-rebuilding build tool (build.c)

    A shallow embedding of [build.c] and the properties of its command
    buffer, its process runner, its target walk and its bootstrap.

    The C program talks to the operating system all the time ([stat],
    [fork], [execvp], [waitpid], [rename], [unlink], [realloc], [printf]).
    Those calls are modelled by an explicit world, a file system plus the
    chronological list of the calls made so far, threaded through a small
    monad whose computations return, end the process, replace its image
    or are undefined.  What a child process does, and whether [fork],
    [realloc], [rename], [unlink] and [execvp] succeed, is left to the
    oracles of an environment record over which every theorem is
    quantified. *)

From Stdlib Require Import ZArith Ascii String List Lia.
From stdpp Require Import base list strings gmap pretty.

Local Open Scope string_scope.
Local Open Scope Z_scope.
Local Open Scope list_scope.

(** ** Data model *)

(** [size_t] is a 64-bit unsigned integer; arithmetic on it wraps. *)
Definition SIZE_MAX1 : Z := 2 ^ 64.
Definition wrap (z : Z) : Z := z mod SIZE_MAX1.

(** [sizeof(char * )] on the LP64 targets the tool is written for. *)
Definition sizeof_ptr : Z := 8.

(** [struct Cmd].  [args] is the array the pointer designates, one entry
    per slot; a slot holds a string pointer ([Some s]) or no valid string
    ([None]: the NULL terminator of a [CMD(...)] literal, or a slot that
    [realloc] left indeterminate). *)
Record Cmd := mkCmd {
  args : list (option string);
  count : Z;
  capacity : Z
}.

(** [CMD(t1, ..., tn)]: a literal array with its NULL terminator,
    [count] the number of tokens, [capacity] zero. *)
Definition CMD (toks : list string) : Cmd :=
  {| args := (Some <$> toks) ++ [None];
     count := Z.of_nat (length toks);
     capacity := 0 |}.

(** [Cmd cmd = {0}]. *)
Definition Cmd_zero : Cmd := {| args := []; count := 0; capacity := 0 |}.

(** [struct Target].  [deps] is [None] for a NULL pointer, otherwise the
    targets before the NULL terminator of the array; [cmd] is [None] for a
    NULL pointer.  Targets are declared before the walk and never written
    during it, so a target reached along two paths is the same value. *)
#[warnings="-register-all"]
Inductive Target := mkTarget {
  output : string;
  deps : option (list Target);
  cmd : option Cmd
}.

(** [TARGET(name, out, deps, cmd)] and [SOURCE(name, out)]. *)
Definition TARGET (out : string) (ds : list Target) (c : Cmd) : Target :=
  mkTarget out (Some ds) (Some c).
Definition SOURCE (out : string) : Target := mkTarget out None None.

(** ** The world *)

Record File := mkFile { st_mtime : Z; contents : string }.

(** What [waitpid] reports about a child. *)
Inductive wait_status :=
| WExited (code : Z)
| WSignaled (sig : Z)
| WOther.

(** The calls the program makes, in the order it makes them.  [Visit] is
    the one entry that is not a call to the system: it records the entry
    into [build_target]. *)
Inductive Event :=
| Stdout (s : string)
| Stderr (s : string)
| Realloc (bytes : Z)
| Spawn (argv : list string)
| Rename (src dst : string)
| Unlink (path : string)
| Execvp (path : string) (argv : list string)
| Visit (out : string).

Record World := mkWorld {
  fs : gmap string File;
  trace : list Event
}.

(** The world [w] after the calls [evs], the file system being [files]. *)
Definition after (w : World) (files : gmap string File) (evs : list Event)
  : World :=
  {| fs := files; trace := trace w ++ evs |}.

(** How a call ends: it returns, the process exits, the process image is
    replaced, or the behaviour is undefined in C. *)
Inductive Outcome (A : Type) :=
| Return (a : A) (w : World)
| Exit (code : Z) (w : World)
| Replaced (w : World)
| Undefined.
Arguments Return {A} a w.
Arguments Exit {A} code w.
Arguments Replaced {A} w.
Arguments Undefined {A}.

Definition M (A : Type) : Type := World -> Outcome A.

Definition ret {A} (a : A) : M A := fun w => Return a w.

Definition bind {A B} (m : M A) (k : A -> M B) : M B :=
  fun w =>
    match m w with
    | Return a w' => k a w'
    | Exit c w' => Exit c w'
    | Replaced w' => Replaced w'
    | Undefined => Undefined
    end.

Notation "x <-- m ;; k" := (bind m (fun x => k))
  (at level 100, m at next level, right associativity).
Notation "m ;;; k" := (bind m (fun _ => k))
  (at level 100, right associativity).

Definition emit (e : Event) : M unit :=
  fun w => Return tt (after w (fs w) [e]).

Definition printf (s : string) : M unit := emit (Stdout s).
Definition eprintf (s : string) : M unit := emit (Stderr s).
Definition exit {A} (code : Z) : M A := fun w => Exit code w.
Definition undefined {A} : M A := fun _ => Undefined.

(** [time_t get_file_mtime(const char *path)]: zero when [stat] fails. *)
Definition mtime_of (files : gmap string File) (path : string) : Z :=
  match files !! path with
  | Some f => st_mtime f
  | None => 0
  end.

Definition get_file_mtime (path : string) : M Z :=
  fun w => Return (mtime_of (fs w) path) w.

(** What the trace shows on standard output: the payloads of the
    [printf] calls, one after the other. *)
Fixpoint stdout_text (tr : list Event) : string :=
  match tr with
  | [] => ""
  | Stdout s :: tr' => s +:+ stdout_text tr'
  | _ :: tr' => stdout_text tr'
  end.

(** ** Command rendering: [cmd_print] *)

Definition newline : string := String "010"%char "".

(** [strchr(s, ' ')] is non-NULL. *)
Fixpoint has_space (s : string) : bool :=
  match s with
  | EmptyString => false
  | String a s' => if Ascii.eqb a " "%char then true else has_space s'
  end.

(** The [for] loop of [cmd_print] from index [i], with [n] turns left.
    Reading a slot that holds no string is undefined.  ([i + 1] cannot
    wrap: [i < count].) *)
Fixpoint cmd_print_loop (c : Cmd) (n : nat) (i : Z) : M unit :=
  match n with
  | O => ret tt
  | S n' =>
      match args c !! Z.to_nat i with
      | Some (Some a) =>
          (if has_space a then printf ("'" +:+ a +:+ "'") else printf a) ;;;
          (if i + 1 <? count c then printf " " else ret tt) ;;;
          cmd_print_loop c n' (i + 1)
      | _ => undefined
      end
  end.

(** [void cmd_print(const Cmd *cmd)]. *)
Definition cmd_print (c : Cmd) : M unit :=
  if count c =? 0 then ret tt
  else
    cmd_print_loop c (Z.to_nat (count c)) 0 ;;;
    printf newline.

(** ** The program, over an arbitrary environment *)

Definition CC : string := "gcc".

(** [panic(msg, ...)]: the diagnostic on the error stream, then [exit(1)].
    [file] and [line] stand for [__FILE__] and [__LINE__]. *)
Definition panic {A} (file : string) (line : Z) (msg : string) : M A :=
  eprintf ("Panic at " +:+ file +:+ ":" +:+ pretty line +:+ ": " +:+ newline
           +:+ ">>> " +:+ msg +:+ newline) ;;;
  exit 1.

(** [snprintf(buf, size, "%s", s)]: at most [size - 1] characters are kept. *)
Definition snprintf (size : nat) (s : string) : string :=
  substring 0 (size - 1) s.

(** The environment.  [source_path] is [__FILE__], the path of the build
    definition as the compiler saw it.  The other fields are oracles: the
    file system stands for the state of the machine outside the process,
    and each oracle is a function of it. *)
Record Env := mkEnv {
  source_path : string;
  realloc_ok : Z -> bool;
  fork_fails : gmap string File -> bool;
  child : list string -> gmap string File -> wait_status * gmap string File;
  rename_fault : string -> string -> gmap string File -> bool;
  unlink_fault : string -> gmap string File -> bool;
  execvp_ok : string -> list string -> gmap string File -> bool
}.

Section Program.

Variable E : Env.

(** *** [cmd_internal_append] *)

(** One turn of the [while] loop of [cmd_internal_append] for the argument
    [cur_arg].  The array is reallocated when [count == capacity]; the
    recorded capacity is then incremented.  [realloc] keeps the slots that
    fit in the new block and leaves the others indeterminate.  Writing
    outside the block is undefined. *)
Definition append_one (c : Cmd) (cur_arg : string) : M Cmd :=
  c1 <-- (if count c =? capacity c then
            let newsize :=
              if capacity c =? 0 then 10 else wrap (capacity c * 2) in
            let bytes := wrap (newsize * sizeof_ptr) in
            emit (Realloc bytes) ;;;
            if realloc_ok E bytes then
              ret {| args := resize (Z.to_nat (bytes / sizeof_ptr)) None
                                    (args c);
                     count := count c;
                     capacity := wrap (capacity c + 1) |}
            else
              panic (source_path E) 99 "Your garbage ran out of ram holy shit"
          else ret c) ;;
  if count c1 <? Z.of_nat (length (args c1)) then
    ret {| args := <[Z.to_nat (count c1) := Some cur_arg]> (args c1);
           count := wrap (count c1 + 1);
           capacity := capacity c1 |}
  else undefined.

Fixpoint append_loop (c : Cmd) (toks : list string) : M Cmd :=
  match toks with
  | [] => ret c
  | cur_arg :: rest => c' <-- append_one c cur_arg ;; append_loop c' rest
  end.

(** [void cmd_internal_append(Cmd *cmd, ...)], called through
    [cmd_append(CMD, ...)], which ends the arguments with NULL: [toks] are
    the arguments before it.  The updated [*cmd] is returned. *)
Definition cmd_internal_append (c : option Cmd) (toks : list string) : M Cmd :=
  match c with
  | None => panic (source_path E) 82 "cmd is a null pointer"
  | Some c => append_loop c toks
  end.

(** *** [cmd_run] *)

(** The tokens of a command: the strings in its first [count] slots. *)
Fixpoint read_slots (l : list (option string)) (n : nat) (i : nat)
  : option (list string) :=
  match n with
  | O => Some []
  | S n' =>
      match l !! i with
      | Some (Some a) =>
          match read_slots l n' (S i) with
          | Some r => Some (a :: r)
          | None => None
          end
      | _ => None
      end
  end.

Definition cmd_tokens (c : Cmd) : option (list string) :=
  read_slots (args c) (Z.to_nat (count c)) 0.

(** [fork], [execvp] in the child, [waitpid] in the parent.  The oracle
    is asked about, and [Spawn] records, the tokens of the command the
    child was forked for: the strings in its first [count] slots.  The
    child's [execvp] reads the array up to its first NULL.  For an array
    with NULL right after the tokens, as [CMD(...)] makes it, what it
    reads is exactly the tokens.  [cmd_internal_append] stores no NULL:
    for a command it built, [execvp] reads on into slots the program
    never wrote, or past the block.  That happens in the child; whatever
    the child does then, a failed [execvp] and its panic included, is the
    oracle's answer, and the parent goes on from the status [waitpid]
    gives it. *)
Definition spawn (c : Cmd) : M wait_status :=
  fun w =>
    if fork_fails E (fs w) then panic (source_path E) 144 "fork failed" w
    else
      match cmd_tokens c with
      | None => Undefined
      | Some argv =>
          let '(st, fs') := child E argv (fs w) in
          Return st (after w fs' [Spawn argv])
      end.

(** [int cmd_run(Cmd *cmd)]. *)
Definition cmd_run (c : Cmd) : M Z :=
  if count c =? 0 then ret 1
  else
    printf "[CMD] " ;;;
    cmd_print c ;;;
    status <-- spawn c ;;
    match status with
    | WExited exit_code =>
        if negb (exit_code =? 0) then
          eprintf ("Command failed with exit code " +:+ pretty exit_code
                   +:+ newline) ;;;
          ret 0
        else ret 1
    | WSignaled sig =>
        panic (source_path E) 168
              ("Build terminated with signal " +:+ pretty sig +:+ newline)
    | WOther => ret 0
    end.

(** *** The bootstrap: [go_build_urself] *)

(** [rename(src, dst)]: [dst] is replaced by the file at [src]; fails, and
    changes nothing, when [src] does not exist or the system refuses. *)
Definition rename (src dst : string) : M Z :=
  fun w =>
    if rename_fault E src dst (fs w) then
      Return (-1) (after w (fs w) [Rename src dst])
    else
      match fs w !! src with
      | Some f =>
          Return 0 (after w (<[dst := f]> (delete src (fs w)))
                          [Rename src dst])
      | None => Return (-1) (after w (fs w) [Rename src dst])
      end.

(** [unlink(path)]. *)
Definition unlink (path : string) : M Z :=
  fun w =>
    if unlink_fault E path (fs w) then
      Return (-1) (after w (fs w) [Unlink path])
    else
      match fs w !! path with
      | Some _ => Return 0 (after w (delete path (fs w)) [Unlink path])
      | None => Return (-1) (after w (fs w) [Unlink path])
      end.

(** [execvp(path, argv)] in the tool itself: on success nothing of the
    running image is left; on failure the call returns -1. *)
Definition execvp (path : string) (argv : list string) : M Z :=
  fun w =>
    let w' := after w (fs w) [Execvp path argv] in
    if execvp_ok E path argv (fs w) then Replaced w' else Return (-1) w'.

(** [char old_binary_path[1024]] after the [snprintf]. *)
Definition old_binary_path (binary_path : string) : string :=
  snprintf 1024 (binary_path +:+ ".old").

(** [void go_build_urself(int argc, char **argv)], outside [_WIN32].
    [argv] is [binary_path :: rest]. *)
Definition go_build_urself (binary_path : string) (rest : list string)
  : M unit :=
  src_mtime <-- get_file_mtime (source_path E) ;;
  bin_mtime <-- get_file_mtime binary_path ;;
  if src_mtime <=? bin_mtime then ret tt
  else
    printf "[INFO] rebuilding" ;;;
    r <-- rename binary_path (old_binary_path binary_path) ;;
    if negb (r =? 0) then
      panic (source_path E) 194 "Couldnt rename old binary"
    else
      c <-- cmd_internal_append (Some Cmd_zero)
              [CC; source_path E; "-o"; binary_path] ;;
      ok <-- cmd_run c ;;
      (if ok =? 0 then
         rename (old_binary_path binary_path) binary_path ;;; ret tt
       else ret tt) ;;;
      unlink (old_binary_path binary_path) ;;;
      printf ("[INFO] Restarting " +:+ binary_path +:+ "..." +:+ newline) ;;;
      execvp binary_path (binary_path :: rest) ;;;
      panic (source_path E) 209 "How did we get here?".

(** *** The target walk: [build_target] *)

(** The [for] loop over [t->deps]: each dependency is built, then its
    output is compared with [mtime], the time stamp of [t]'s own output
    read on entry.  [build] is [build_target] itself. *)
Fixpoint build_deps (build : Target -> M unit) (mtime : Z)
         (ds : list Target) (needs_rebuild : bool) : M bool :=
  match ds with
  | [] => ret needs_rebuild
  | dep :: ds' =>
      build dep ;;;
      dep_mtime <-- get_file_mtime (output dep) ;;
      build_deps build mtime ds'
                 (if dep_mtime >? mtime then true else needs_rebuild)
  end.

(** [if (!cmd_run(t->cmd)) panic("Failed to build %s\n", t->output);] *)
Definition rebuild (out : string) (c : Cmd) : M unit :=
  ok <-- cmd_run c ;;
  if ok =? 0 then
    panic (source_path E) 254 ("Failed to build " +:+ out +:+ newline)
  else ret tt.

(** The branch of [build_target] taken when [needs_rebuild] is set and
    [t->cmd] is NULL. *)
Definition no_command (out : string) (mtime : Z) : M unit :=
  if mtime =? 0 then
    panic (source_path E) 248 ("No command provided to build " +:+ out)
  else ret tt.

(** What [build_target] does once the dependencies are done. *)
Definition finish_target (out : string) (c : option Cmd) (mtime : Z)
           (needs_rebuild : bool) : M unit :=
  if needs_rebuild then
    match c with
    | None => no_command out mtime
    | Some c => rebuild out c
    end
  else
    match c with
    | Some _ => printf (out +:+ " Up to date!!!" +:+ newline)
    | None => ret tt
    end.

(** The part of [build_target] before the dependencies: the value of
    [needs_rebuild] after the first two tests. *)
Definition stale_on_entry (c : option Cmd) (mtime : Z) : M bool :=
  let needs_rebuild := if mtime =? 0 then true else false in
  match c with
  | Some _ =>
      src_mtime <-- get_file_mtime (source_path E) ;;
      ret (if src_mtime >? mtime then true else needs_rebuild)
  | None => ret needs_rebuild
  end.

(** [if (t->deps) { for ... }]. *)
Definition walk_deps (build : Target -> M unit) (mtime : Z)
           (ds : option (list Target)) (needs_rebuild : bool) : M bool :=
  match ds with
  | Some ds => build_deps build mtime ds needs_rebuild
  | None => ret needs_rebuild
  end.

(** [void build_target(Target *t)]. *)
Fixpoint build_target (t : Target) : M unit :=
  match t with
  | mkTarget out ds c =>
      emit (Visit out) ;;;
      mtime <-- get_file_mtime out ;;
      nr1 <-- stale_on_entry c mtime ;;
      nr2 <-- walk_deps build_target mtime ds nr1 ;;
      finish_target out c mtime nr2
  end.

(** *** [main] *)

Definition src_main : Target := SOURCE "main.c".
Definition main_obj : Target :=
  TARGET "main.o" [src_main] (CMD [CC; "main.c"; "-c"; "main.o"]).
(** The target the C program calls [main]. *)
Definition main_target : Target :=
  TARGET "main2" [src_main; main_obj] (CMD [CC; "main.o"; "-o"; "main2"]).

(** [int main(int argc, char **argv)] with [argv = binary_path :: rest]. *)
Definition main (binary_path : string) (rest : list string) : M Z :=
  go_build_urself binary_path rest ;;;
  build_target main_target ;;;
  ret 0.

End Program.

(** ** Vocabulary of the properties *)

(** The rendering of a command as the specification words it: the tokens
    in order, separated by single spaces, a token with a space in it
    between single quotes, and a newline at the end. *)
Definition quote_token (t : string) : string :=
  if has_space t then "'" +:+ t +:+ "'" else t.

Definition render (toks : list string) : string :=
  String.concat " " (quote_token <$> toks) +:+ newline.

Definition is_Stdout (e : Event) : Prop :=
  match e with Stdout _ => True | _ => False end.

(** The targets entered, in order. *)
Fixpoint visits (tr : list Event) : list string :=
  match tr with
  | [] => []
  | Visit out :: tr' => out :: visits tr'
  | _ :: tr' => visits tr'
  end.

(** The children spawned, in order. *)
Fixpoint spawns (tr : list Event) : list (list string) :=
  match tr with
  | [] => []
  | Spawn argv :: tr' => argv :: spawns tr'
  | _ :: tr' => spawns tr'
  end.

(** The sizes passed to [realloc], in order. *)
Fixpoint reallocs (tr : list Event) : list Z :=
  match tr with
  | [] => []
  | Realloc b :: tr' => b :: reallocs tr'
  | _ :: tr' => reallocs tr'
  end.

(** The sizes in bytes of the blocks [cmd_internal_append] asks for while
    the tokens number [k], [k + 1], ..., [k + n - 1] are appended to a
    command whose count and capacity are equal: the first block has ten
    slots, every later one twice the recorded capacity. *)
Definition block_size (k : nat) : Z :=
  if Z.of_nat k =? 0 then 10 * sizeof_ptr
  else Z.of_nat k * 2 * sizeof_ptr.

Definition block_sizes (k n : nat) : list Z := block_size <$> seq k n.

(** The state of a command that holds [toks] after as many calls of
    [append_one] from [Cmd_zero]: the recorded capacity is the count. *)
Definition filled (toks : list string) (c : Cmd) : Prop :=
  count c = Z.of_nat (length toks)
  /\ capacity c = Z.of_nat (length toks)
  /\ cmd_tokens c = Some toks.

(** The depth-first walk of a target graph, a shared target once per path
    that reaches it. *)
Fixpoint walk (t : Target) : list string :=
  match t with
  | mkTarget out ds _ =>
      out :: match ds with
             | Some l => flat_map walk l
             | None => []
             end
  end.

(** [build_target] on [t] up to the point where the dependencies [pre]
    have been built and compared: the value is [needs_rebuild] there. *)
Definition before_dep (E : Env) (t : Target) (pre : list Target) : M bool :=
  emit (Visit (output t)) ;;;
  mtime <-- get_file_mtime (output t) ;;
  nr <-- stale_on_entry E (cmd t) mtime ;;
  build_deps (build_target E) mtime pre nr.

(** A computation that, when it returns, has entered the targets [vs]. *)
Definition enters {A} (m : M A) (vs : list string) : Prop :=
  forall w a w',
    m w = Return a w' -> visits (trace w') = visits (trace w) ++ vs.

(** ** Sample environments and worlds *)

Definition newest (files : gmap string File) : Z :=
  map_fold (fun _ f acc => Z.max (st_mtime f) acc) 0 files.

(** A compiler that writes its last argument, newer than everything. *)
Definition write_last (data : string) (argv : list string)
           (files : gmap string File) : gmap string File :=
  match last argv with
  | Some o => <[o := mkFile (newest files + 1) data]> files
  | None => files
  end.

Definition env_ok : Env :=
  {| source_path := "build.c";
     realloc_ok := fun _ => true;
     fork_fails := fun _ => false;
     child := fun argv files => (WExited 0, write_last "object" argv files);
     rename_fault := fun _ _ _ => false;
     unlink_fault := fun _ _ => false;
     execvp_ok := fun _ _ _ => true |}.

(** A compiler that leaves a partial output behind and exits with 1. *)
Definition env_fail : Env :=
  {| source_path := "build.c";
     realloc_ok := fun _ => true;
     fork_fails := fun _ => false;
     child := fun argv files => (WExited 1, write_last "partial" argv files);
     rename_fault := fun _ _ _ => false;
     unlink_fault := fun _ _ => false;
     execvp_ok := fun _ _ _ => true |}.

Definition world_of (l : list (string * File)) : World :=
  {| fs := list_to_map l; trace := [] |}.

(** The tool is up to date, the sample project has never been built. *)
Definition w_fresh : World :=
  world_of [("build.c", mkFile 3 "tool source"); ("./build", mkFile 4 "tool");
            ("main.c", mkFile 5 "source")].

(** The build definition was edited after the tool was compiled. *)
Definition w_stale_tool : World :=
  world_of [("build.c", mkFile 7 "tool source"); ("./build", mkFile 4 "tool");
            ("main.c", mkFile 5 "source")].

(** The tool is up to date, the object file is older than the source. *)
Definition w_touched : World :=
  world_of [("build.c", mkFile 3 "tool source"); ("./build", mkFile 4 "tool");
            ("main.o", mkFile 6 "object"); ("main.c", mkFile 8 "source")].

(** The world of [w_stale_tool] once the bootstrap has moved the binary
    away, and then once the compiler has failed. *)
Definition w_backed_up : World :=
  after w_stale_tool
        (<["./build.old" := mkFile 4 "tool"]> (delete "./build" (fs w_stale_tool)))
        [Stdout "[INFO] rebuilding"; Rename "./build" "./build.old"].

Definition w_compile_failed : World :=
  after w_backed_up
        (<["./build" := mkFile 8 "partial"]> (fs w_backed_up))
        [Realloc 80; Realloc 16; Realloc 32; Realloc 48;
         Stdout "[CMD] "; Stdout "gcc"; Stdout " "; Stdout "build.c";
         Stdout " "; Stdout "-o"; Stdout " "; Stdout "./build";
         Stdout newline; Spawn ["gcc"; "build.c"; "-o"; "./build"];
         Stderr ("Command failed with exit code 1" +:+ newline)].

(** A program built from a source that nothing provides. *)
Definition gen_c : Target := SOURCE "gen.c".
Definition gen_app : Target :=
  TARGET "gen" [gen_c] (CMD [CC; "gen.c"; "-o"; "gen"]).

(** A program linked from a library object. *)
Definition lib_o : Target :=
  mkTarget "lib.o" None (Some (CMD [CC; "-c"; "lib.c"; "-o"; "lib.o"])).
Definition lib_app : Target :=
  TARGET "app" [lib_o] (CMD [CC; "lib.o"; "-o"; "app"]).

(** Everything is there, and the build definition is the newest file. *)
Definition w_edited : World :=
  world_of [("build.c", mkFile 9 "tool source"); ("lib.c", mkFile 1 "source");
            ("lib.o", mkFile 5 "object"); ("app", mkFile 5 "program")].

(** A header without a command that depends on its template. *)
Definition config_in : Target := SOURCE "config.in".
Definition config_h : Target := mkTarget "config.h" (Some [config_in]) None.

Definition w_config : World :=
  world_of [("config.h", mkFile 1 "header"); ("config.in", mkFile 2 "template")].

(** A diamond: [dia_d] depends on [dia_b] and [dia_c], both on [dia_a]. *)
Definition dia_a : Target := SOURCE "a.h".
Definition dia_b : Target :=
  TARGET "b.o" [dia_a] (CMD [CC; "-c"; "b.c"; "-o"; "b.o"]).
Definition dia_c : Target :=
  TARGET "c.o" [dia_a] (CMD [CC; "-c"; "c.c"; "-o"; "c.o"]).
Definition dia_d : Target :=
  TARGET "d" [dia_b; dia_c] (CMD [CC; "b.o"; "c.o"; "-o"; "d"]).

Definition w_diamond : World := world_of [("a.h", mkFile 1 "header")].

(** The world a complete build of the diamond leaves with [env_ok]:
    the three objects written in turn, [a.h] looked at twice. *)
Definition w_diamond_built : World :=
  after w_diamond
        (<["d" := mkFile 4 "object"]>
           (<["c.o" := mkFile 3 "object"]>
              (<["b.o" := mkFile 2 "object"]> (fs w_diamond))))
        ([Visit "d"; Visit "b.o"; Visit "a.h"; Stdout "[CMD] "]
         ++ [Stdout "gcc"; Stdout " "; Stdout "-c"; Stdout " "; Stdout "b.c";
             Stdout " "; Stdout "-o"; Stdout " "; Stdout "b.o"; Stdout newline;
             Spawn ["gcc"; "-c"; "b.c"; "-o"; "b.o"]]
         ++ [Visit "c.o"; Visit "a.h"; Stdout "[CMD] "]
         ++ [Stdout "gcc"; Stdout " "; Stdout "-c"; Stdout " "; Stdout "c.c";
             Stdout " "; Stdout "-o"; Stdout " "; Stdout "c.o"; Stdout newline;
             Spawn ["gcc"; "-c"; "c.c"; "-o"; "c.o"]]
         ++ [Stdout "[CMD] "; Stdout "gcc"; Stdout " "; Stdout "b.o";
             Stdout " "; Stdout "c.o"; Stdout " "; Stdout "-o"; Stdout " ";
             Stdout "d"; Stdout newline;
             Spawn ["gcc"; "b.o"; "c.o"; "-o"; "d"]]).

(** ** Vocabulary of the further properties *)

(** The world an outcome leaves behind, when there is one. *)
Definition outcome_world {A} (o : Outcome A) : option World :=
  match o with
  | Return _ w => Some w
  | Exit _ w => Some w
  | Replaced w => Some w
  | Undefined => None
  end.

(** A computation all of whose runs, however they end, add calls to the
    trace that stand in the relation [P] with the file systems before and
    after. *)
Definition keeps {A} (P : gmap string File -> gmap string File
                          -> list Event -> Prop) (m : M A) : Prop :=
  forall w,
    match outcome_world (m w) with
    | Some w' => exists evs, w' = after w (fs w') evs /\ P (fs w) (fs w') evs
    | None => True
    end.

(** The calls the target walk may make. *)
Definition walk_event (e : Event) : Prop :=
  match e with
  | Visit _ | Stdout _ | Stderr _ | Spawn _ => True
  | _ => False
  end.

(** What the target walk does to the world: calls of the four kinds
    above, and no change of the file system unless a child ran. *)
Definition walk_effect (files files' : gmap string File) (evs : list Event)
  : Prop :=
  Forall walk_event evs /\ (spawns evs = [] -> files' = files).

(** A computation that never ends with the image replaced. *)
Definition stays {A} (m : M A) : Prop := forall w w', m w <> Replaced w'.

(** A graph in which nothing is to be done: every output has a time
    stamp, and a target with a command is older neither than the build
    definition nor than the output of any of its dependencies. *)
Fixpoint settled (E : Env) (files : gmap string File) (t : Target) : bool :=
  match t with
  | mkTarget out ds c =>
      let mtime := mtime_of files out in
      negb (mtime =? 0)
      && match c with
         | Some _ =>
             (mtime_of files (source_path E) <=? mtime)
             && match ds with
                | Some l =>
                    forallb (fun d => mtime_of files (output d) <=? mtime) l
                | None => true
                end
         | None => true
         end
      && match ds with
         | Some l => forallb (settled E files) l
         | None => true
         end
  end.

(** The notices printed for a settled graph: the dependencies first, then
    the target itself when it has a command. *)
Fixpoint notices (t : Target) : string :=
  match t with
  | mkTarget out ds c =>
      match ds with
      | Some l => fold_right (fun d acc => notices d +:+ acc) "" l
      | None => ""
      end
      +:+ match c with
          | Some _ => out +:+ " Up to date!!!" +:+ newline
          | None => ""
          end
  end.

(** The text of a panic at [line]. *)
Definition panic_text (E : Env) (line : Z) (msg : string) : string :=
  "Panic at " +:+ source_path E +:+ ":" +:+ pretty line +:+ ": " +:+ newline
  +:+ ">>> " +:+ msg +:+ newline.

(** What [cmd_run] does once [waitpid] has returned [st]. *)
Definition after_wait (E : Env) (st : wait_status) : M Z :=
  match st with
  | WExited exit_code =>
      if negb (exit_code =? 0) then
        eprintf ("Command failed with exit code " +:+ pretty exit_code
                 +:+ newline) ;;;
        ret 0
      else ret 1
  | WSignaled sig =>
      panic (source_path E) 168
            ("Build terminated with signal " +:+ pretty sig +:+ newline)
  | WOther => ret 0
  end.

(** A compiler that is killed by signal 9 before it writes anything. *)
Definition env_killed : Env :=
  {| source_path := "build.c";
     realloc_ok := fun _ => true;
     fork_fails := fun _ => false;
     child := fun argv files => (WSignaled 9, files);
     rename_fault := fun _ _ _ => false;
     unlink_fault := fun _ _ => false;
     execvp_ok := fun _ _ _ => true |}.

(** A machine on which no process can be created. *)
Definition env_nofork : Env :=
  {| source_path := "build.c";
     realloc_ok := fun _ => true;
     fork_fails := fun _ => true;
     child := fun argv files => (WExited 0, files);
     rename_fault := fun _ _ _ => false;
     unlink_fault := fun _ _ => false;
     execvp_ok := fun _ _ _ => true |}.

(** A machine without memory to give. *)
Definition env_nomem : Env :=
  {| source_path := "build.c";
     realloc_ok := fun _ => false;
     fork_fails := fun _ => false;
     child := fun argv files => (WExited 0, write_last "object" argv files);
     rename_fault := fun _ _ _ => false;
     unlink_fault := fun _ _ => false;
     execvp_ok := fun _ _ _ => true |}.

(** The sample project of [main], built, with an up-to-date tool. *)
Definition w_built : World :=
  world_of [("build.c", mkFile 3 "tool source"); ("./build", mkFile 4 "tool");
            ("main.c", mkFile 5 "source"); ("main.o", mkFile 6 "object");
            ("main2", mkFile 7 "program")].

(** A target whose command has no token. *)
Definition phony : Target := mkTarget "all" None (Some Cmd_zero).

(** A path of [n] characters. *)
Fixpoint long_path (n : nat) : string :=
  match n with
  | O => ""
  | S n' => String "x"%char (long_path n')
  end.

(** The tool installed under a path of 1023 characters, its definition
    edited since. *)
Definition w_long : World :=
  world_of [("build.c", mkFile 7 "tool source");
            (long_path 1023, mkFile 4 "tool")].

(** The diamond with the two dependencies of its top in the other
    order. *)
Definition dia_d_swapped : Target :=
  TARGET "d" [dia_c; dia_b] (CMD [CC; "b.o"; "c.o"; "-o"; "d"]).

(** A diamond over a target whose command writes a log and never the
    output it is declared for. *)
Definition log_a : Target :=
  mkTarget "a.stamp" None (Some (CMD ["sh"; "check.sh"; "log"])).
Definition log_b : Target :=
  TARGET "b.o" [log_a] (CMD [CC; "-c"; "b.c"; "-o"; "b.o"]).
Definition log_c : Target :=
  TARGET "c.o" [log_a] (CMD [CC; "-c"; "c.c"; "-o"; "c.o"]).
Definition log_d : Target :=
  TARGET "d" [log_b; log_c] (CMD [CC; "b.o"; "c.o"; "-o"; "d"]).


(** ** The monad *)

Lemma bind_Return {A B} (m : M A) (k : A -> M B) w a w1 :
  m w = Return a w1 -> bind m k w = k a w1.
Proof. intros H. unfold bind. now rewrite H. Qed.

Lemma bind_Return_inv {A B} (m : M A) (k : A -> M B) w b w' :
  bind m k w = Return b w' ->
  exists a w1, m w = Return a w1 /\ k a w1 = Return b w'.
Proof.
  unfold bind. destruct (m w) as [a w1| | |]; try discriminate.
  intros H. now exists a, w1.
Qed.

Lemma bind_assoc {A B C} (m : M A) (k : A -> M B) (h : B -> M C) w :
  bind (bind m k) h w = bind m (fun a => bind (k a) h) w.
Proof. unfold bind. now destruct (m w). Qed.

Lemma bind_ext {A B} (m : M A) (k1 k2 : A -> M B) w :
  (forall a w', k1 a w' = k2 a w') -> bind m k1 w = bind m k2 w.
Proof. intros H. unfold bind. destruct (m w); auto. Qed.

Lemma after_nil w : after w (fs w) [] = w.
Proof. destruct w as [f t]. unfold after. cbn. now rewrite app_nil_r. Qed.

Lemma fs_after w f e : fs (after w f e) = f.
Proof. reflexivity. Qed.

Lemma trace_after w f e : trace (after w f e) = trace w ++ e.
Proof. reflexivity. Qed.

Lemma after_after w f1 e1 f2 e2 :
  after (after w f1 e1) f2 e2 = after w f2 (e1 ++ e2).
Proof. unfold after. cbn. now rewrite app_assoc. Qed.

Lemma emit_after e w : emit e w = Return tt (after w (fs w) [e]).
Proof. reflexivity. Qed.

Lemma string_app_cons (x : ascii) (a b : string) :
  String x a +:+ b = String x (a +:+ b).
Proof. reflexivity. Qed.

Lemma string_app_assoc (a b c : string) : (a +:+ b) +:+ c = a +:+ (b +:+ c).
Proof.
  induction a as [|x a IH]; [reflexivity|].
  rewrite !string_app_cons. cbn. now rewrite IH.
Qed.

Lemma string_app_nil_r (a : string) : a +:+ "" = a.
Proof.
  induction a as [|x a IH]; [reflexivity|].
  rewrite !string_app_cons. cbn. now rewrite IH.
Qed.

Lemma string_app_length (a b : string) :
  String.length (a +:+ b) = (String.length a + String.length b)%nat.
Proof.
  induction a as [|x a IH]; [reflexivity|].
  rewrite !string_app_cons. cbn. now rewrite IH.
Qed.

Lemma stdout_text_app tr1 tr2 :
  stdout_text (tr1 ++ tr2) = stdout_text tr1 +:+ stdout_text tr2.
Proof.
  induction tr1 as [|e tr1 IH]; [reflexivity|].
  destruct e; cbn; rewrite ?IH; try reflexivity.
  now rewrite string_app_assoc.
Qed.

(** ** Command rendering *)

Lemma has_space_spec (t : string) :
  has_space t = true <-> In " "%char (list_ascii_of_string t).
Proof.
  induction t as [|a t IH]; cbn.
  - split; [discriminate | tauto].
  - destruct (Ascii.eqb_spec a " "%char) as [->|Hne].
    + split; auto.
    + rewrite IH. split; [auto | intros [H|H]; [congruence | exact H]].
Qed.

Lemma read_slots_CMD (pre : list (option string)) (toks : list string) rest :
  read_slots (pre ++ (Some <$> toks) ++ rest) (length toks) (length pre)
  = Some toks.
Proof.
  revert pre. induction toks as [|t toks IH]; intros pre; [reflexivity|].
  cbn [length read_slots fmap list_fmap].
  rewrite lookup_app_r by lia. rewrite Nat.sub_diag. cbn.
  specialize (IH (pre ++ [Some t])).
  rewrite length_app in IH. cbn in IH. rewrite Nat.add_1_r in IH.
  rewrite <- app_assoc in IH. cbn in IH. now rewrite IH.
Qed.

Lemma cmd_tokens_CMD (toks : list string) : cmd_tokens (CMD toks) = Some toks.
Proof.
  unfold cmd_tokens, CMD. cbn. rewrite Nat2Z.id.
  apply (read_slots_CMD [] toks [None]).
Qed.

Lemma read_slots_length l n i toks :
  read_slots l n i = Some toks -> length toks = n.
Proof.
  revert i toks. induction n as [|n IH]; intros i toks; cbn.
  - now intros [= <-].
  - destruct (l !! i) as [[a|]|]; try discriminate.
    destruct (read_slots l n (S i)) as [r|] eqn:Hr; try discriminate.
    intros [= <-]. cbn. f_equal. eauto.
Qed.

(** The loop of [cmd_print] over the slots [i .. i + n - 1], the last of
    which is the last token of the command. *)
Lemma cmd_print_loop_spec (c : Cmd) (n i : nat) (toks : list string) w :
  read_slots (args c) n i = Some toks ->
  Z.of_nat (i + n) = count c ->
  exists evs,
    cmd_print_loop c n (Z.of_nat i) w = Return tt (after w (fs w) evs)
    /\ Forall is_Stdout evs
    /\ stdout_text evs = String.concat " " (quote_token <$> toks).
Proof.
  revert i toks w. induction n as [|n IH]; intros i toks w Hread Hcount.
  - cbn in Hread. injection Hread as <-. exists []. cbn.
    unfold ret. now rewrite after_nil.
  - cbn [read_slots] in Hread. cbn [cmd_print_loop]. rewrite Nat2Z.id.
    destruct (args c !! i) as [[a|]|]; try discriminate.
    destruct (read_slots (args c) n (S i)) as [r|] eqn:Hr; try discriminate.
    injection Hread as <-.
    set (q := if has_space a then printf ("'" +:+ a +:+ "'") else printf a).
    assert (Hq : forall w0, q w0 = Return tt (after w0 (fs w0) [Stdout (quote_token a)])).
    { intros w0. unfold q, quote_token. now destruct (has_space a). }
    erewrite bind_Return by apply Hq.
    replace (Z.of_nat i + 1) with (Z.of_nat (S i)) by lia.
    destruct n as [|n].
    + cbn in Hr. injection Hr as <-.
      assert ((Z.of_nat (S i) <? count c) = false) as -> by (apply Z.ltb_ge; lia).
      cbn. unfold bind, ret. cbn.
      exists [Stdout (quote_token a)]. repeat split.
      * repeat constructor.
      * cbn. now rewrite string_app_nil_r.
    + assert ((Z.of_nat (S i) <? count c) = true) as -> by (apply Z.ltb_lt; lia).
      erewrite bind_Return by apply emit_after.
      rewrite fs_after, after_after.
      destruct (IH (S i) r (after w (fs w) ([Stdout (quote_token a)] ++
                                            [Stdout " "])) Hr ltac:(lia))
        as (evs & Hrun & Hall & Htxt).
      rewrite Hrun, fs_after, after_after.
      exists ([Stdout (quote_token a)] ++ [Stdout " "] ++ evs).
      repeat split.
      * repeat constructor. exact Hall.
      * cbn [app stdout_text]. rewrite Htxt.
        pose proof (read_slots_length _ _ _ _ Hr) as Hlen.
        destruct r as [|t r]; [discriminate|]. reflexivity.
Qed.

Lemma cmd_print_spec (c : Cmd) (toks : list string) w :
  cmd_tokens c = Some toks ->
  0 < count c ->
  exists evs,
    cmd_print c w = Return tt (after w (fs w) evs)
    /\ Forall is_Stdout evs
    /\ stdout_text evs = render toks.
Proof.
  intros Htok Hpos. unfold cmd_print.
  assert ((count c =? 0) = false) as -> by (apply Z.eqb_neq; lia).
  destruct (cmd_print_loop_spec c (Z.to_nat (count c)) 0 toks w Htok ltac:(lia))
    as (evs & Hrun & Hall & Htxt).
  cbn in Hrun. erewrite bind_Return by apply Hrun.
  unfold printf. rewrite emit_after, fs_after, after_after.
  exists (evs ++ [Stdout newline]). repeat split.
  - apply Forall_app. split; [exact Hall | repeat constructor].
  - rewrite stdout_text_app, Htxt. unfold render. cbn.
    now rewrite string_app_nil_r.
Qed.

Lemma spawns_app tr1 tr2 : spawns (tr1 ++ tr2) = spawns tr1 ++ spawns tr2.
Proof.
  induction tr1 as [|e tr1 IH]; [reflexivity|].
  destruct e; cbn; now rewrite ?IH.
Qed.

Lemma spawns_Stdout evs : Forall is_Stdout evs -> spawns evs = [].
Proof.
  induction 1 as [|e evs He _ IH]; [reflexivity|].
  destruct e; cbn in *; tauto.
Qed.

(** ** The process runner *)

Lemma cmd_run_empty E (c : Cmd) w : count c = 0 -> cmd_run E c w = Return 1 w.
Proof. intros H. unfold cmd_run. now rewrite H. Qed.

(** A command whose child exits: [cmd_run] returns 1 for the exit code 0
    and 0 for any other, after one child has been spawned. *)
Lemma cmd_run_exited E (c : Cmd) (toks : list string) w code files :
  cmd_tokens c = Some toks ->
  0 < count c ->
  fork_fails E (fs w) = false ->
  child E toks (fs w) = (WExited code, files) ->
  exists evs,
    cmd_run E c w = Return (if code =? 0 then 1 else 0) (after w files evs)
    /\ spawns evs = [toks].
Proof.
  intros Htok Hpos Hfork Hchild. unfold cmd_run.
  assert ((count c =? 0) = false) as -> by (apply Z.eqb_neq; lia).
  unfold printf at 1. erewrite bind_Return by apply emit_after.
  destruct (cmd_print_spec c toks (after w (fs w) [Stdout "[CMD] "]) Htok Hpos)
    as (evs & Hrun & Hall & _).
  erewrite bind_Return by apply Hrun.
  rewrite !fs_after, after_after.
  set (w1 := after w (fs w) ([Stdout "[CMD] "] ++ evs)).
  assert (Hsp : spawn E c w1 = Return (WExited code) (after w1 files [Spawn toks])).
  { unfold spawn. cbn [fs w1 after]. now rewrite Hfork, Htok, Hchild. }
  erewrite bind_Return by apply Hsp.
  unfold w1. rewrite after_after.
  destruct (code =? 0) eqn:Hc; cbn [negb].
  - eexists. split; [reflexivity|].
    rewrite !spawns_app, (spawns_Stdout evs Hall). reflexivity.
  - unfold eprintf. erewrite bind_Return by apply emit_after.
    rewrite fs_after, after_after. eexists. split; [reflexivity|].
    rewrite !spawns_app, (spawns_Stdout evs Hall). reflexivity.
Qed.

(** ** Claims about a single command *)

(** C7.  For a command with at least one token, [cmd_print] writes to
    standard output, and to nothing else, the tokens in order on one
    line: single spaces between them, a token between single quotes
    exactly when it contains a space, one newline at the end and nothing
    after it.  The tokens gcc, -o, out file, main.c give the line
    gcc -o 'out file' main.c. *)
Theorem cmd_print_renders (c : Cmd) (toks : list string) (w : World) :
  cmd_tokens c = Some toks ->
  toks <> [] ->
  (exists evs,
      cmd_print c w = Return tt (after w (fs w) evs)
      /\ Forall is_Stdout evs
      /\ stdout_text evs
         = String.concat " " (quote_token <$> toks) +:+ newline)
  /\ (forall t, quote_token t = "'" +:+ t +:+ "'"
                <-> In " "%char (list_ascii_of_string t))
  /\ render ["gcc"; "-o"; "out file"; "main.c"]
     = "gcc -o 'out file' main.c" +:+ newline.
Proof.
  intros Htok Hne. split; [|split].
  - apply cmd_print_spec; [exact Htok|].
    pose proof (read_slots_length _ _ _ _ Htok) as Hlen.
    destruct toks; [congruence|]. cbn in Hlen. lia.
  - intros t. rewrite <- has_space_spec. unfold quote_token.
    destruct (has_space t); split; try reflexivity; try discriminate.
    intros H. exfalso.
    apply (f_equal String.length) in H.
    rewrite !string_app_length in H. cbn in H. lia.
  - reflexivity.
Qed.

Lemma cmd_print_renders_witness :
  (exists evs,
      cmd_print (CMD ["cp"; "my file"; "dst"]) w_fresh
      = Return tt (after w_fresh (fs w_fresh) evs)
      /\ Forall is_Stdout evs
      /\ stdout_text evs
         = String.concat " " (quote_token <$> ["cp"; "my file"; "dst"])
           +:+ newline).
Proof.
  apply (cmd_print_renders (CMD ["cp"; "my file"; "dst"])
                           ["cp"; "my file"; "dst"] w_fresh).
  - reflexivity.
  - discriminate.
Defined.

(** C10.  For a command without tokens, [cmd_print] returns without
    writing anything, not even the newline, and [cmd_run] returns before
    its first [printf]: the world, and so the bytes written so far, are
    what they were. *)
Theorem empty_command_writes_nothing (E : Env) (c : Cmd) (w : World) :
  count c = 0 ->
  cmd_print c w = Return tt w
  /\ (exists r, cmd_run E c w = Return r w).
Proof.
  intros H. split.
  - unfold cmd_print. now rewrite H.
  - exists 1. now apply cmd_run_empty.
Qed.

Lemma empty_command_writes_nothing_witness :
  cmd_print (CMD []) w_fresh = Return tt w_fresh
  /\ (exists r, cmd_run env_ok (CMD []) w_fresh = Return r w_fresh).
Proof.
  apply (empty_command_writes_nothing env_ok (CMD []) w_fresh).
  reflexivity.
Defined.

(** C1, as the code has it.  [cmd_run] on a command without tokens
    spawns no child and touches nothing, and what it returns is 1: the
    value it returns when a child exits with code 0, not the 0 it returns
    when a child exits with another code. *)
Theorem cmd_run_empty_returns_success_value (E : Env) (c : Cmd) (w : World) :
  count c = 0 ->
  cmd_run E c w = Return 1 w
  /\ (forall c' toks w0 code files,
         cmd_tokens c' = Some toks -> 0 < count c' ->
         fork_fails E (fs w0) = false ->
         child E toks (fs w0) = (WExited code, files) ->
         exists evs,
           cmd_run E c' w0
           = Return (if code =? 0 then 1 else 0) (after w0 files evs)
           /\ spawns evs = [toks]).
Proof.
  intros H. split.
  - now apply cmd_run_empty.
  - intros c' toks w0 code files. apply cmd_run_exited.
Qed.

Lemma cmd_run_empty_returns_success_value_witness :
  cmd_run env_fail Cmd_zero w_fresh = Return 1 w_fresh.
Proof.
  apply (cmd_run_empty_returns_success_value env_fail Cmd_zero w_fresh).
  reflexivity.
Defined.

(** C1, as the specification has it, fails: with a compiler that exits
    with 1, a command with a token makes [cmd_run] return 0, and the
    command without tokens makes it return 1. *)
Lemma cmd_run_empty_is_not_failure :
  (exists w', cmd_run env_fail (CMD ["gcc"]) w_fresh = Return 0 w')
  /\ cmd_run env_fail (CMD []) w_fresh = Return 1 w_fresh
  /\ (forall w', cmd_run env_fail (CMD []) w_fresh <> Return 0 w').
Proof.
  split; [|split].
  - eexists. vm_compute. reflexivity.
  - reflexivity.
  - intros w'. vm_compute. discriminate.
Qed.

(** ** The command buffer *)

Lemma read_slots_lookup (l : list (option string)) (n i : nat)
      (toks : list string) :
  read_slots l n i = Some toks <->
  length toks = n
  /\ forall j t, toks !! j = Some t -> l !! (i + j)%nat = Some (Some t).
Proof.
  revert i toks. induction n as [|n IH]; intros i toks; cbn.
  - split.
    + intros [= <-]. split; [reflexivity|]. intros j t H. discriminate.
    + intros [Hlen _]. destruct toks; [reflexivity | discriminate].
  - split.
    + destruct (l !! i) as [[a|]|] eqn:Hi; try discriminate.
      destruct (read_slots l n (S i)) as [r|] eqn:Hr; try discriminate.
      intros [= <-]. apply IH in Hr as [Hlen Hr]. split; [cbn; lia|].
      intros [|j] t; cbn.
      * intros [= <-]. now rewrite Nat.add_0_r.
      * intros H. apply Hr in H.
        now replace (i + S j)%nat with (S i + j)%nat by lia.
    + intros [Hlen H]. destruct toks as [|a r]; [discriminate|].
      rewrite <- (Nat.add_0_r i) at 1. rewrite (H 0%nat a eq_refl).
      assert (Hr : read_slots l n (S i) = Some r).
      { apply IH. split; [cbn in Hlen; lia|]. intros j t Hj.
        replace (S i + j)%nat with (i + S j)%nat by lia. now apply H. }
      now rewrite Hr.
Qed.

Lemma wrap_small z : 0 <= z < SIZE_MAX1 -> wrap z = z.
Proof. intros H. unfold wrap. now apply Z.mod_small. Qed.

Lemma reallocs_app tr1 tr2 :
  reallocs (tr1 ++ tr2) = reallocs tr1 ++ reallocs tr2.
Proof.
  induction tr1 as [|e tr1 IH]; [reflexivity|].
  destruct e; cbn; now rewrite ?IH.
Qed.

Lemma reallocs_Realloc l : reallocs (Realloc <$> l) = l.
Proof. induction l as [|b l IH]; cbn; [reflexivity | now rewrite IH]. Qed.

Lemma append_one_filled E (toks : list string) (c : Cmd) (t : string) w :
  (forall b, realloc_ok E b = true) ->
  Z.of_nat (length toks) < 2 ^ 60 ->
  filled toks c ->
  exists c',
    append_one E c t w
    = Return c' (after w (fs w) [Realloc (block_size (length toks))])
    /\ filled (toks ++ [t]) c'.
Proof.
  intros Hok Hlen (Hcount & Hcap & Htok).
  set (k := length toks) in *.
  unfold append_one. rewrite Hcount, Hcap, Z.eqb_refl.
  set (newsize := if Z.of_nat k =? 0 then 10 else wrap (Z.of_nat k * 2)).
  assert (Hnew : newsize = (if Z.of_nat k =? 0 then 10 else Z.of_nat k * 2)).
  { unfold newsize. destruct (Z.of_nat k =? 0); [reflexivity|].
    apply wrap_small. unfold SIZE_MAX1. lia. }
  assert (Hbig : Z.of_nat k < newsize < 2 ^ 61).
  { rewrite Hnew. destruct (Z.eqb_spec (Z.of_nat k) 0); lia. }
  assert (Hbytes : wrap (newsize * sizeof_ptr) = block_size k).
  { rewrite wrap_small by (unfold SIZE_MAX1, sizeof_ptr; lia).
    unfold block_size. rewrite Hnew.
    now destruct (Z.of_nat k =? 0). }
  rewrite Hbytes.
  erewrite bind_Return; cycle 1.
  { erewrite bind_Return by apply emit_after. rewrite Hok. reflexivity. }
  cbn [args count capacity].
  assert (Hslots : Z.to_nat (block_size k / sizeof_ptr) = Z.to_nat newsize).
  { rewrite <- Hbytes, wrap_small by (unfold SIZE_MAX1, sizeof_ptr; lia).
    unfold sizeof_ptr. now rewrite Z.div_mul by lia. }
  rewrite Hslots, length_resize.
  assert ((Z.of_nat k <? Z.of_nat (Z.to_nat newsize)) = true) as ->
      by (apply Z.ltb_lt; lia).
  unfold ret. eexists. split; [reflexivity|].
  unfold filled. cbn [args count capacity].
  rewrite length_app. cbn [length].
  rewrite !wrap_small by (unfold SIZE_MAX1; lia).
  repeat split; try lia.
  unfold cmd_tokens in *. cbn [args count].
  rewrite Hcount in Htok. rewrite Nat2Z.id in *.
  replace (Z.to_nat (Z.of_nat k + 1)) with (S k) by lia.
  apply read_slots_lookup in Htok as [_ Hold].
  apply read_slots_lookup. split; [rewrite length_app; cbn; lia|].
  intros j x Hj. cbn [Nat.add].
  destruct (decide (j = k)) as [->|Hne].
  - rewrite list_lookup_insert_eq by (rewrite length_resize; lia).
    rewrite lookup_app_r in Hj by (fold k; lia).
    fold k in Hj. rewrite Nat.sub_diag in Hj. cbn in Hj. congruence.
  - assert (j < k)%nat as Hjk.
    { apply lookup_lt_Some in Hj. rewrite length_app in Hj. cbn in Hj.
      fold k in Hj. lia. }
    rewrite list_lookup_insert_ne by lia.
    rewrite lookup_app_l in Hj by (fold k; lia).
    pose proof (Hold j x Hj) as Hlook. cbn [Nat.add] in Hlook.
    rewrite lookup_resize; [exact Hlook | lia |].
    now apply lookup_lt_Some in Hlook.
Qed.

Lemma append_loop_filled E (toks0 toks : list string) (c : Cmd) w :
  (forall b, realloc_ok E b = true) ->
  Z.of_nat (length toks0 + length toks) < 2 ^ 60 ->
  filled toks0 c ->
  exists c',
    append_loop E c toks w
    = Return c' (after w (fs w)
                       (Realloc <$> block_sizes (length toks0) (length toks)))
    /\ filled (toks0 ++ toks) c'.
Proof.
  intros Hok. revert toks0 c w.
  induction toks as [|t toks IH]; intros toks0 c w Hlen Hfill.
  - cbn. unfold ret. rewrite after_nil, app_nil_r. now exists c.
  - cbn [append_loop length] in *.
    destruct (append_one_filled E toks0 c t w Hok ltac:(lia) Hfill)
      as (c1 & Hone & Hfill1).
    erewrite bind_Return by apply Hone.
    destruct (IH (toks0 ++ [t]) c1
                 (after w (fs w) [Realloc (block_size (length toks0))]))
      as (c' & Hrun & Hfill').
    { rewrite length_app. cbn. lia. }
    { exact Hfill1. }
    rewrite Hrun, fs_after, after_after.
    exists c'. split.
    + do 2 f_equal. rewrite length_app. cbn [length].
      unfold block_sizes. cbn [seq fmap list_fmap app].
      now rewrite Nat.add_1_r.
    + now rewrite <- app_assoc in Hfill'.
Qed.

Lemma filled_zero : filled [] Cmd_zero.
Proof. repeat split. Qed.

Lemma length_block_sizes k n : length (block_sizes k n) = n.
Proof. unfold block_sizes. now rewrite length_fmap, length_seq. Qed.

(** C8, as the code has it.  While [realloc] succeeds, appending [toks]
    to an empty command stores every token inside the block (no write
    outside it), reallocates only when the count has reached the recorded
    capacity, and does so before every single token: the recorded
    capacity grows by one each time, to the number of tokens, and the
    number of calls of [realloc] is the number of tokens.  The blocks
    asked for hold ten slots, then twice the recorded capacity. *)
Theorem cmd_append_reallocates_for_every_token
        (E : Env) (toks : list string) (w : World) :
  (forall b, realloc_ok E b = true) ->
  Z.of_nat (length toks) < 2 ^ 60 ->
  exists c evs,
    cmd_internal_append E (Some Cmd_zero) toks w
    = Return c (after w (fs w) evs)
    /\ cmd_tokens c = Some toks
    /\ count c = Z.of_nat (length toks)
    /\ capacity c = Z.of_nat (length toks)
    /\ reallocs evs = block_sizes 0 (length toks)
    /\ length (reallocs evs) = length toks.
Proof.
  intros Hok Hlen.
  destruct (append_loop_filled E [] toks Cmd_zero w Hok Hlen filled_zero)
    as (c & Hrun & Hcount & Hcap & Htok).
  exists c, (Realloc <$> block_sizes 0 (length toks)).
  cbn [app length] in *. repeat split; try assumption.
  - apply reallocs_Realloc.
  - rewrite reallocs_Realloc. apply length_block_sizes.
Qed.

Lemma cmd_append_reallocates_for_every_token_witness :
  exists c evs,
    cmd_internal_append env_ok (Some Cmd_zero) ["a"; "b"; "c"] w_fresh
    = Return c (after w_fresh (fs w_fresh) evs)
    /\ cmd_tokens c = Some ["a"; "b"; "c"]
    /\ count c = 3
    /\ capacity c = 3
    /\ reallocs evs = [80; 16; 32]
    /\ length (reallocs evs) = 3%nat.
Proof.
  apply (cmd_append_reallocates_for_every_token env_ok ["a"; "b"; "c"] w_fresh).
  - reflexivity.
  - reflexivity.
Defined.

(** ** The bootstrap *)




(** C4.  When the build definition is not newer than the running binary
    ([stat] failing counts as time stamp 0), [go_build_urself] returns at
    once: no call is made and the file system is what it was; [main]
    then goes on with the walk of its target graph. *)
Theorem bootstrap_up_to_date_is_noop
        (E : Env) (binary_path : string) (rest : list string) (w : World) :
  mtime_of (fs w) (source_path E) <= mtime_of (fs w) binary_path ->
  go_build_urself E binary_path rest w = Return tt w
  /\ main E binary_path rest w = (build_target E main_target ;;; ret 0) w.
Proof.
  intros H.
  assert (Hgo : go_build_urself E binary_path rest w = Return tt w).
  { unfold go_build_urself, bind, get_file_mtime.
    assert ((mtime_of (fs w) (source_path E) <=? mtime_of (fs w) binary_path)
            = true) as -> by (apply Z.leb_le; lia).
    reflexivity. }
  split; [exact Hgo|].
  unfold main. now erewrite bind_Return by apply Hgo.
Qed.

Lemma bootstrap_up_to_date_is_noop_witness :
  go_build_urself env_ok "./build" [] w_fresh = Return tt w_fresh
  /\ main env_ok "./build" [] w_fresh
     = (build_target env_ok main_target ;;; ret 0) w_fresh.
Proof.
  apply (bootstrap_up_to_date_is_noop env_ok "./build" [] w_fresh).
  vm_compute. discriminate.
Defined.


(** ** The target walk *)

Lemma build_target_unfold E (t : Target) :
  build_target E t
  = (emit (Visit (output t)) ;;;
     mtime <-- get_file_mtime (output t) ;;
     nr1 <-- stale_on_entry E (cmd t) mtime ;;
     nr2 <-- walk_deps (build_target E) mtime (deps t) nr1 ;;
     finish_target E (output t) (cmd t) mtime nr2).
Proof. now destruct t. Qed.

Lemma stale_on_entry_eval E (c : option Cmd) (mtime : Z) w :
  exists b,
    stale_on_entry E c mtime w = Return b w
    /\ (mtime = 0 -> b = true)
    /\ (is_Some c -> mtime < mtime_of (fs w) (source_path E) -> b = true).
Proof.
  unfold stale_on_entry. destruct c as [c|].
  - unfold bind, get_file_mtime, ret. eexists. split; [reflexivity|]. split.
    + intros ->. cbn. now destruct (_ >? 0).
    + intros _ H.
      assert ((mtime_of (fs w) (source_path E) >? mtime) = true) as ->;
        [|reflexivity].
      rewrite Z.gtb_ltb. apply Z.ltb_lt. lia.
  - unfold ret. eexists. split; [reflexivity|]. split.
    + now intros ->.
    + intros [c Hc]. discriminate.
Qed.

(** Once set, [needs_rebuild] stays set through the loop. *)
Lemma build_deps_sticky (build : Target -> M unit) mtime ds w b w' :
  build_deps build mtime ds true w = Return b w' -> b = true.
Proof.
  revert w. induction ds as [|d ds IH]; intros w; cbn.
  - unfold ret. congruence.
  - intros H. apply bind_Return_inv in H as ([] & w1 & _ & H).
    apply bind_Return_inv in H as (m & w2 & _ & H).
    destruct (m >? mtime); eauto.
Qed.

Lemma walk_deps_sticky (build : Target -> M unit) mtime ds w b w' :
  walk_deps build mtime ds true w = Return b w' -> b = true.
Proof.
  destruct ds as [ds|]; cbn.
  - apply build_deps_sticky.
  - unfold ret. congruence.
Qed.

Lemma bind_sticky {B} (m : M bool) (k : bool -> M B) w :
  (forall b w', m w = Return b w' -> b = true) ->
  bind m k w = (m ;;; k true) w.
Proof.
  intros H. unfold bind. destruct (m w) as [b w'| | |] eqn:Hm; try reflexivity.
  now rewrite (H b w' eq_refl).
Qed.

(** The loop over the dependencies, cut at one of them. *)
Lemma build_deps_app (build : Target -> M unit) mtime pre d post nr w :
  build_deps build mtime (pre ++ d :: post) nr w
  = (nr' <-- build_deps build mtime pre nr ;;
     build d ;;;
     dep_mtime <-- get_file_mtime (output d) ;;
     build_deps build mtime post
                (if dep_mtime >? mtime then true else nr')) w.
Proof.
  revert nr w. induction pre as [|p pre IH]; intros nr w; [reflexivity|].
  cbn [app build_deps]. rewrite bind_assoc.
  apply bind_ext. intros _ w1. rewrite bind_assoc.
  apply bind_ext. intros m w2. apply IH.
Qed.

(** What a target that is stale on entry does: the dependencies, then the
    rebuild. *)
Lemma build_target_stale E (t : Target) w :
  (mtime_of (fs w) (output t) = 0
   \/ (is_Some (cmd t)
       /\ mtime_of (fs w) (output t) < mtime_of (fs w) (source_path E))) ->
  build_target E t w
  = (walk_deps (build_target E) (mtime_of (fs w) (output t)) (deps t) true ;;;
     finish_target E (output t) (cmd t) (mtime_of (fs w) (output t)) true)
      (after w (fs w) [Visit (output t)]).
Proof.
  intros Hstale. rewrite build_target_unfold.
  erewrite bind_Return by apply emit_after.
  unfold get_file_mtime at 1. unfold bind at 1. rewrite fs_after.
  destruct (stale_on_entry_eval E (cmd t) (mtime_of (fs w) (output t))
                                (after w (fs w) [Visit (output t)]))
    as (b & Hb & Hzero & Hsrc).
  erewrite bind_Return by apply Hb.
  assert (b = true) as ->.
  { destruct Hstale as [H | [Hc H]]; [now apply Hzero | now apply Hsrc]. }
  apply bind_sticky. intros b w'. apply walk_deps_sticky.
Qed.

(** ** Claims about the target walk *)

(** C2, as the code has it.  A target whose output has no time stamp
    first has its dependencies built; if that ends the tool, nothing of
    the target's own is run.  Otherwise [needs_rebuild] is set whatever
    the dependencies are: a target with a command has it run by
    [cmd_run] (and the tool panics when that returns 0), a target
    without one makes the tool panic with the message that names its
    output. *)
Theorem missing_output_is_rebuilt_after_deps (E : Env) (t : Target) (w : World) :
  mtime_of (fs w) (output t) = 0 ->
  build_target E t w
  = (walk_deps (build_target E) 0 (deps t) true ;;;
     match cmd t with
     | Some c =>
         ok <-- cmd_run E c ;;
         if ok =? 0 then
           panic (source_path E) 254
                 ("Failed to build " +:+ output t +:+ newline)
         else ret tt
     | None =>
         panic (source_path E) 248
               ("No command provided to build " +:+ output t)
     end) (after w (fs w) [Visit (output t)]).
Proof.
  intros H. rewrite build_target_stale by auto. rewrite H.
  unfold finish_target, no_command, rebuild. now destruct (cmd t).
Qed.

(** C6, as the code has it.  A target with a command whose output is
    older than the build definition first has its dependencies built; if
    that ends the tool, the command is not run.  Otherwise
    [needs_rebuild] is set whatever the dependencies are, and the command
    is run by [cmd_run], output present or not. *)
Theorem newer_tool_source_forces_rebuild
        (E : Env) (t : Target) (c : Cmd) (w : World) :
  cmd t = Some c ->
  mtime_of (fs w) (output t) < mtime_of (fs w) (source_path E) ->
  build_target E t w
  = (walk_deps (build_target E) (mtime_of (fs w) (output t)) (deps t) true ;;;
     ok <-- cmd_run E c ;;
     if ok =? 0 then
       panic (source_path E) 254 ("Failed to build " +:+ output t +:+ newline)
     else ret tt) (after w (fs w) [Visit (output t)]).
Proof.
  intros Hc H. rewrite build_target_stale.
  - now rewrite Hc.
  - right. split; [rewrite Hc; eauto | exact H].
Qed.

(** C3, as the code has it.  Let [d] be one of the dependencies of [t],
    let the walk have come to it and let its build return.  If the time
    stamp of [d]'s output, read right after that build, is greater than
    the one of [t]'s output read on entry, [needs_rebuild] is set from
    there on: the remaining dependencies are built, and then a [t] with a
    command has it run, output present or not, while a [t] without a
    command is not rebuilt: the tool panics if its output had no time
    stamp and returns silently otherwise. *)
Theorem newer_dependency_marks_stale
        (E : Env) (t : Target) (pre : list Target) (d : Target)
        (post : list Target) (w w1 w2 : World) (nr : bool) :
  deps t = Some (pre ++ d :: post) ->
  before_dep E t pre w = Return nr w1 ->
  build_target E d w1 = Return tt w2 ->
  mtime_of (fs w) (output t) < mtime_of (fs w2) (output d) ->
  build_target E t w
  = (build_deps (build_target E) (mtime_of (fs w) (output t)) post true ;;;
     match cmd t with
     | Some c =>
         ok <-- cmd_run E c ;;
         if ok =? 0 then
           panic (source_path E) 254
                 ("Failed to build " +:+ output t +:+ newline)
         else ret tt
     | None =>
         if mtime_of (fs w) (output t) =? 0 then
           panic (source_path E) 248
                 ("No command provided to build " +:+ output t)
         else ret tt
     end) w2.
Proof.
  intros Hdeps Hpre Hd Hnewer.
  rewrite build_target_unfold. unfold before_dep in Hpre.
  erewrite bind_Return by apply emit_after.
  erewrite bind_Return in Hpre by apply emit_after.
  unfold get_file_mtime at 1. unfold bind at 1.
  unfold get_file_mtime at 1 in Hpre. unfold bind at 1 in Hpre.
  rewrite fs_after in *.
  set (mtime := mtime_of (fs w) (output t)) in *.
  destruct (stale_on_entry_eval E (cmd t) mtime
                                (after w (fs w) [Visit (output t)]))
    as (b & Hb & _).
  erewrite bind_Return by apply Hb.
  erewrite bind_Return in Hpre by apply Hb.
  rewrite Hdeps. cbn [walk_deps].
  unfold bind at 1. rewrite build_deps_app.
  erewrite bind_Return by apply Hpre.
  erewrite bind_Return by apply Hd.
  unfold get_file_mtime at 1. unfold bind at 1.
  assert ((mtime_of (fs w2) (output d) >? mtime) = true) as ->
      by (rewrite Z.gtb_ltb; apply Z.ltb_lt; lia).
  fold (bind (build_deps (build_target E) mtime post true)
             (fun nr2 => finish_target E (output t) (cmd t) mtime nr2) w2).
  rewrite bind_sticky by (intros b' w'; apply build_deps_sticky).
  unfold finish_target, no_command, rebuild. now destruct (cmd t).
Qed.

(** Closed goals about the sample worlds are settled by evaluation. *)
Ltac conjuncts := repeat match goal with |- _ /\ _ => split end.
Ltac evaluate := conjuncts; vm_compute; reflexivity.


(** The recovery of the bootstrap on the sample world: the compiler
    leaves a partial binary and fails, and the image that is executed
    again is the original one. *)
Example bootstrap_recovery_run :
  exists w',
    go_build_urself env_fail "./build" ["-v"] w_stale_tool = Replaced w'
    /\ fs w' !! "./build" = Some (mkFile 4 "tool")
    /\ fs w' !! "./build.old" = None
    /\ fs w_compile_failed !! "./build" = Some (mkFile 8 "partial").
Proof. eexists. evaluate. Qed.

Lemma missing_output_is_rebuilt_after_deps_witness :
  build_target env_ok main_obj w_fresh
  = (walk_deps (build_target env_ok) 0 (deps main_obj) true ;;;
     match cmd main_obj with
     | Some c =>
         ok <-- cmd_run env_ok c ;;
         if ok =? 0 then
           panic (source_path env_ok) 254
                 ("Failed to build " +:+ output main_obj +:+ newline)
         else ret tt
     | None =>
         panic (source_path env_ok) 248
               ("No command provided to build " +:+ output main_obj)
     end) (after w_fresh (fs w_fresh) [Visit (output main_obj)]).
Proof.
  apply (missing_output_is_rebuilt_after_deps env_ok main_obj w_fresh).
  vm_compute. reflexivity.
Defined.

(** C2, as the specification has it, fails: the output of [gen_app] is
    missing and it has a command, but its dependency has neither output
    nor command; the tool ends there, with the message that names the
    dependency, and no child is ever spawned. *)
Lemma missing_output_not_always_rebuilt :
  mtime_of (fs w_fresh) (output gen_app) = 0
  /\ cmd gen_app = Some (CMD [CC; "gen.c"; "-o"; "gen"])
  /\ build_target env_ok gen_app w_fresh
     = Exit 1 (after w_fresh (fs w_fresh)
                     [Visit "gen"; Visit "gen.c";
                      Stderr ("Panic at build.c:248: " +:+ newline
                              +:+ ">>> No command provided to build gen.c"
                              +:+ newline)])
  /\ spawns [Visit "gen"; Visit "gen.c";
             Stderr ("Panic at build.c:248: " +:+ newline
                     +:+ ">>> No command provided to build gen.c"
                     +:+ newline)] = [].
Proof. evaluate. Qed.

Lemma newer_tool_source_forces_rebuild_witness :
  build_target env_ok lib_app w_edited
  = (walk_deps (build_target env_ok) (mtime_of (fs w_edited) (output lib_app))
               (deps lib_app) true ;;;
     ok <-- cmd_run env_ok (CMD [CC; "lib.o"; "-o"; "app"]) ;;
     if ok =? 0 then
       panic (source_path env_ok) 254
             ("Failed to build " +:+ output lib_app +:+ newline)
     else ret tt) (after w_edited (fs w_edited) [Visit (output lib_app)]).
Proof.
  apply (newer_tool_source_forces_rebuild
           env_ok lib_app (CMD [CC; "lib.o"; "-o"; "app"]) w_edited).
  - reflexivity.
  - vm_compute. reflexivity.
Defined.

(** C6, as the specification has it, fails: [lib_app] has a command and
    an output older than the build definition, but the command of its
    dependency exits with 1; the tool ends there, and the only child ever
    spawned is the one of the dependency. *)
Lemma newer_tool_source_not_always_rebuilt :
  cmd lib_app = Some (CMD [CC; "lib.o"; "-o"; "app"])
  /\ mtime_of (fs w_edited) (output lib_app)
     < mtime_of (fs w_edited) (source_path env_fail)
  /\ exists w',
      build_target env_fail lib_app w_edited = Exit 1 w'
      /\ spawns (trace w') = [[CC; "-c"; "lib.c"; "-o"; "lib.o"]].
Proof.
  split; [reflexivity|]. split; [vm_compute; reflexivity|].
  eexists. evaluate.
Qed.

Lemma newer_dependency_marks_stale_witness :
  build_target env_ok main_obj w_touched
  = (build_deps (build_target env_ok)
                (mtime_of (fs w_touched) (output main_obj)) [] true ;;;
     match cmd main_obj with
     | Some c =>
         ok <-- cmd_run env_ok c ;;
         if ok =? 0 then
           panic (source_path env_ok) 254
                 ("Failed to build " +:+ output main_obj +:+ newline)
         else ret tt
     | None =>
         if mtime_of (fs w_touched) (output main_obj) =? 0 then
           panic (source_path env_ok) 248
                 ("No command provided to build " +:+ output main_obj)
         else ret tt
     end) (after w_touched (fs w_touched) [Visit "main.o"; Visit "main.c"]).
Proof.
  apply (newer_dependency_marks_stale
           env_ok main_obj [] src_main [] w_touched
           (after w_touched (fs w_touched) [Visit "main.o"])
           (after w_touched (fs w_touched) [Visit "main.o"; Visit "main.c"])
           false).
  - reflexivity.
  - vm_compute. reflexivity.
  - vm_compute. reflexivity.
  - vm_compute. reflexivity.
Defined.

(** C3, as the specification has it, fails: the template is newer than
    the header that depends on it, but the header has no command; its
    build returns after the two visits, nothing is spawned and no file is
    touched. *)
Lemma newer_dependency_not_always_rebuilt :
  deps config_h = Some [config_in]
  /\ mtime_of (fs w_config) (output config_h)
     < mtime_of (fs w_config) (output config_in)
  /\ build_target env_ok config_h w_config
     = Return tt (after w_config (fs w_config)
                        [Visit "config.h"; Visit "config.in"]).
Proof. evaluate. Qed.

(** ** Induction over target graphs *)

(** Induction over a target graph: a property holds of a target when it
    holds of its dependencies. *)
Lemma Target_deps_ind (P : Target -> Prop) :
  (forall out ds c,
      match ds with Some l => Forall P l | None => True end ->
      P (mkTarget out ds c)) ->
  forall t, P t.
Proof.
  intros H. fix IH 1. intros [out ds c]. apply H.
  destruct ds as [l|]; [|exact I].
  induction l as [|d l IHl]; constructor; [apply IH | exact IHl].
Qed.

(** ** The targets entered by the walk *)

Lemma visits_app tr1 tr2 : visits (tr1 ++ tr2) = visits tr1 ++ visits tr2.
Proof.
  induction tr1 as [|e tr1 IH]; [reflexivity|].
  destruct e; cbn; now rewrite ?IH.
Qed.

Lemma enters_ret {A} (a : A) : enters (ret a) [].
Proof. intros w a' w' [= _ <-]. now rewrite app_nil_r. Qed.

Lemma enters_never {A} (m : M A) vs :
  (forall w a w', m w <> Return a w') -> enters m vs.
Proof. intros H w a w' Hm. now apply H in Hm. Qed.

Lemma enters_emit (e : Event) : enters (emit e) (visits [e]).
Proof.
  intros w [] w' [= <-]. now rewrite trace_after, visits_app.
Qed.

Lemma enters_get_file_mtime (path : string) : enters (get_file_mtime path) [].
Proof. intros w a w' [= _ <-]. now rewrite app_nil_r. Qed.

Lemma enters_bind {A B} (m : M A) (k : A -> M B) vs1 vs2 :
  enters m vs1 -> (forall a, enters (k a) vs2) ->
  enters (bind m k) (vs1 ++ vs2).
Proof.
  intros Hm Hk w b w' H. apply bind_Return_inv in H as (a & w1 & H1 & H2).
  apply Hm in H1. apply Hk in H2. now rewrite H2, H1, app_assoc.
Qed.

Lemma enters_panic {A} (file : string) (line : Z) (msg : string) vs :
  enters (panic (A := A) file line msg) vs.
Proof. apply enters_never. intros w a w'. discriminate. Qed.

Lemma enters_spawn E (c : Cmd) : enters (spawn E c) [].
Proof.
  intros w st w'. unfold spawn.
  destruct (fork_fails E (fs w)); [discriminate|].
  destruct (cmd_tokens c) as [argv|]; [|discriminate].
  destruct (child E argv (fs w)) as [st' files]. intros [= _ <-].
  now rewrite trace_after, visits_app.
Qed.

Lemma enters_cmd_print_loop (c : Cmd) (n : nat) (i : Z) :
  enters (cmd_print_loop c n i) [].
Proof.
  revert i. induction n as [|n IH]; intros i; cbn.
  - apply enters_ret.
  - destruct (args c !! Z.to_nat i) as [[a|]|];
      try (apply enters_never; intros w x w'; discriminate).
    apply (enters_bind _ _ [] []).
    + destruct (has_space a); apply (enters_emit (Stdout _)).
    + intros _. apply (enters_bind _ _ [] []); [|intros _; apply IH].
      destruct (i + 1 <? count c);
        [apply (enters_emit (Stdout _)) | apply enters_ret].
Qed.

Lemma enters_cmd_run E (c : Cmd) : enters (cmd_run E c) [].
Proof.
  unfold cmd_run. destruct (count c =? 0); [apply enters_ret|].
  apply (enters_bind _ _ [] []); [apply (enters_emit (Stdout _))|]. intros _.
  apply (enters_bind _ _ [] []).
  { unfold cmd_print. destruct (count c =? 0); [apply enters_ret|].
    apply (enters_bind _ _ [] []); [apply enters_cmd_print_loop|].
    intros _. apply (enters_emit (Stdout _)). }
  intros _. apply (enters_bind _ _ [] []); [apply enters_spawn|].
  intros [code|sig|].
  - destruct (negb (code =? 0)); [|apply enters_ret].
    apply (enters_bind _ _ [] []); [apply (enters_emit (Stderr _))|].
    intros _. apply enters_ret.
  - apply enters_panic.
  - apply enters_ret.
Qed.

Lemma enters_stale_on_entry E (c : option Cmd) (mtime : Z) :
  enters (stale_on_entry E c mtime) [].
Proof.
  unfold stale_on_entry. destruct c; [|apply enters_ret].
  apply (enters_bind _ _ [] []); [apply enters_get_file_mtime|].
  intros m. apply enters_ret.
Qed.

Lemma enters_finish_target E out (c : option Cmd) (mtime : Z) (nr : bool) :
  enters (finish_target E out c mtime nr) [].
Proof.
  unfold finish_target, rebuild, no_command.
  destruct nr, c as [c|]; try apply enters_ret;
    try apply (enters_emit (Stdout _)).
  - apply (enters_bind _ _ [] []); [apply enters_cmd_run|]. intros ok.
    destruct (ok =? 0); [apply enters_panic | apply enters_ret].
  - destruct (mtime =? 0); [apply enters_panic | apply enters_ret].
Qed.

Lemma enters_build_deps (build : Target -> M unit) mtime ds nr :
  Forall (fun d => enters (build d) (walk d)) ds ->
  enters (build_deps build mtime ds nr) (flat_map walk ds).
Proof.
  intros H. revert nr. induction H as [|d ds Hd _ IH]; intros nr; cbn.
  - apply enters_ret.
  - apply enters_bind; [exact Hd|]. intros _.
    apply (enters_bind _ _ [] _); [apply enters_get_file_mtime|].
    intros m. apply IH.
Qed.

(** A build that returns has entered the targets of the depth-first walk
    of its graph, in that order, a shared target once for every path. *)
Lemma enters_build_target E (t : Target) : enters (build_target E t) (walk t).
Proof.
  induction t as [out ds c IH] using Target_deps_ind.
  rewrite build_target_unfold. cbn [output deps cmd walk].
  apply (enters_bind _ _ [out] _); [apply (enters_emit (Visit out))|].
  intros _.
  apply (enters_bind _ _ [] _); [apply enters_get_file_mtime|]. intros mtime.
  apply (enters_bind _ _ [] _); [apply enters_stale_on_entry|]. intros nr1.
  rewrite <- (app_nil_r (match ds with Some l => _ | None => _ end)).
  apply enters_bind; [|intros nr2; apply enters_finish_target].
  destruct ds as [l|]; cbn; [|apply enters_ret].
  now apply enters_build_deps.
Qed.

(** ** Further properties of the process runner *)

(** Up to [waitpid], [cmd_run] on a command with tokens has written the
    prefix and the rendering of the command, then spawned one child. *)
Lemma cmd_run_spawned E (c : Cmd) (toks : list string) w st files :
  cmd_tokens c = Some toks ->
  0 < count c ->
  fork_fails E (fs w) = false ->
  child E toks (fs w) = (st, files) ->
  exists pre,
    Forall is_Stdout pre
    /\ stdout_text pre = "[CMD] " +:+ render toks
    /\ cmd_run E c w = after_wait E st (after w files (pre ++ [Spawn toks])).
Proof.
  intros Htok Hpos Hfork Hchild. unfold cmd_run.
  assert ((count c =? 0) = false) as -> by (apply Z.eqb_neq; lia).
  unfold printf at 1. erewrite bind_Return by apply emit_after.
  destruct (cmd_print_spec c toks (after w (fs w) [Stdout "[CMD] "]) Htok Hpos)
    as (evs & Hrun & Hall & Htxt).
  erewrite bind_Return by apply Hrun.
  rewrite !fs_after, after_after.
  set (w1 := after w (fs w) ([Stdout "[CMD] "] ++ evs)).
  assert (Hsp : spawn E c w1 = Return st (after w1 files [Spawn toks])).
  { unfold spawn. cbn [fs w1 after]. now rewrite Hfork, Htok, Hchild. }
  erewrite bind_Return by apply Hsp.
  unfold w1. rewrite after_after.
  exists ([Stdout "[CMD] "] ++ evs). split; [|split].
  - constructor; [exact I | exact Hall].
  - cbn [app stdout_text]. now rewrite Htxt.
  - unfold after_wait. now destruct st.
Qed.

(** X1.  A command made by [CMD(...)] with at least one token, whose
    array has NULL right after the tokens, and whose child exits:
    [cmd_run] first writes the prefix and the line of the command to
    standard output, then spawns the child, whose [execvp] reads exactly
    the tokens, and returns 1 for the exit code 0; for any other code it
    writes one line with the code to the error stream and returns 0.
    The file system it leaves is the child's. *)
Theorem cmd_run_literal_reports_exit_code
        (E : Env) (toks : list string) (w : World)
        (code : Z) (files : gmap string File) :
  toks <> [] ->
  fork_fails E (fs w) = false ->
  child E toks (fs w) = (WExited code, files) ->
  args (CMD toks) !! length toks = Some None
  /\ exists pre,
      Forall is_Stdout pre
      /\ stdout_text pre = "[CMD] " +:+ render toks
      /\ cmd_run E (CMD toks) w
         = Return (if code =? 0 then 1 else 0)
                  (after w files
                         (pre ++ Spawn toks
                              :: (if code =? 0 then []
                                  else [Stderr ("Command failed with exit code "
                                                +:+ pretty code +:+ newline)]))).
Proof.
  intros Hne Hfork Hchild. split.
  { unfold CMD. cbn [args]. rewrite lookup_app_r by (rewrite length_fmap; lia).
    now rewrite length_fmap, Nat.sub_diag. }
  assert (Hpos : 0 < count (CMD toks))
    by (destruct toks; [congruence | cbn; lia]).
  destruct (cmd_run_spawned E (CMD toks) toks w _ files
                            (cmd_tokens_CMD toks) Hpos Hfork Hchild)
    as (pre & Hall & Htxt & Hrun).
  exists pre. split; [exact Hall|]. split; [exact Htxt|].
  rewrite Hrun. unfold after_wait. destruct (code =? 0); cbn [negb].
  - reflexivity.
  - unfold eprintf. erewrite bind_Return by apply emit_after.
    rewrite fs_after, after_after, <- app_assoc. reflexivity.
Qed.

Lemma cmd_run_literal_reports_exit_code_witness :
  args (CMD ["gcc"; "-c"; "lib.c"]) !! length ["gcc"; "-c"; "lib.c"]
  = Some None
  /\ exists pre,
      Forall is_Stdout pre
      /\ stdout_text pre = "[CMD] " +:+ render ["gcc"; "-c"; "lib.c"]
      /\ cmd_run env_fail (CMD ["gcc"; "-c"; "lib.c"]) w_edited
         = Return (if 1 =? 0 then 1 else 0)
                  (after w_edited
                         (write_last "partial" ["gcc"; "-c"; "lib.c"]
                                     (fs w_edited))
                         (pre ++ Spawn ["gcc"; "-c"; "lib.c"]
                              :: (if 1 =? 0 then []
                                  else [Stderr ("Command failed with exit code "
                                                +:+ pretty 1 +:+ newline)]))).
Proof.
  apply (cmd_run_literal_reports_exit_code
           env_fail ["gcc"; "-c"; "lib.c"] w_edited 1).
  - discriminate.
  - reflexivity.
  - reflexivity.
Defined.

(** X2.  A command with tokens whose child is ended by a signal: the
    tool exits with code 1 right after the wait, and the last thing it
    writes is the panic that gives the number of the signal. *)
Theorem cmd_run_signal_is_fatal
        (E : Env) (c : Cmd) (toks : list string) (w : World)
        (sig : Z) (files : gmap string File) :
  cmd_tokens c = Some toks ->
  0 < count c ->
  fork_fails E (fs w) = false ->
  child E toks (fs w) = (WSignaled sig, files) ->
  exists pre,
    Forall is_Stdout pre
    /\ cmd_run E c w
       = Exit 1 (after w files
                       (pre ++ [Spawn toks;
                                Stderr (panic_text E 168
                                          ("Build terminated with signal "
                                           +:+ pretty sig +:+ newline))])).
Proof.
  intros Htok Hpos Hfork Hchild.
  destruct (cmd_run_spawned E c toks w _ files Htok Hpos Hfork Hchild)
    as (pre & Hall & _ & Hrun).
  exists pre. split; [exact Hall|]. rewrite Hrun.
  unfold after_wait, panic, eprintf.
  erewrite bind_Return by apply emit_after.
  unfold exit. rewrite fs_after, after_after, <- app_assoc. reflexivity.
Qed.

Lemma cmd_run_fork_failed E (c : Cmd) (toks : list string) w :
  cmd_tokens c = Some toks ->
  0 < count c ->
  fork_fails E (fs w) = true ->
  exists pre,
    Forall is_Stdout pre
    /\ stdout_text pre = "[CMD] " +:+ render toks
    /\ cmd_run E c w
       = Exit 1 (after w (fs w)
                       (pre ++ [Stderr (panic_text E 144 "fork failed")])).
Proof.
  intros Htok Hpos Hfork. unfold cmd_run.
  assert ((count c =? 0) = false) as -> by (apply Z.eqb_neq; lia).
  unfold printf at 1. erewrite bind_Return by apply emit_after.
  destruct (cmd_print_spec c toks (after w (fs w) [Stdout "[CMD] "]) Htok Hpos)
    as (evs & Hrun & Hall & Htxt).
  erewrite bind_Return by apply Hrun.
  rewrite !fs_after, after_after.
  exists ([Stdout "[CMD] "] ++ evs). split; [|split].
  - constructor; [exact I | exact Hall].
  - cbn [app stdout_text]. now rewrite Htxt.
  - unfold bind at 1. unfold spawn. rewrite fs_after, Hfork.
    unfold panic, eprintf. erewrite bind_Return by apply emit_after.
    unfold exit. now rewrite fs_after, after_after.
Qed.

(** X3.  A command with tokens when [fork] fails: the line of the
    command has been written, no child is spawned, the file system is
    what it was and the tool exits with code 1 on the panic of
    [fork]. *)
Theorem cmd_run_fork_failure_is_fatal
        (E : Env) (c : Cmd) (toks : list string) (w : World) :
  cmd_tokens c = Some toks ->
  0 < count c ->
  fork_fails E (fs w) = true ->
  exists pre,
    Forall is_Stdout pre
    /\ stdout_text pre = "[CMD] " +:+ render toks
    /\ cmd_run E c w
       = Exit 1 (after w (fs w)
                       (pre ++ [Stderr (panic_text E 144 "fork failed")])).
Proof. apply cmd_run_fork_failed. Qed.

Lemma cmd_run_signal_is_fatal_witness :
  exists pre,
    Forall is_Stdout pre
    /\ cmd_run env_killed (CMD ["gcc"; "main.c"]) w_fresh
       = Exit 1 (after w_fresh (fs w_fresh)
                       (pre ++ [Spawn ["gcc"; "main.c"];
                                Stderr (panic_text env_killed 168
                                          ("Build terminated with signal "
                                           +:+ pretty 9 +:+ newline))])).
Proof.
  apply (cmd_run_signal_is_fatal
           env_killed (CMD ["gcc"; "main.c"]) ["gcc"; "main.c"] w_fresh 9).
  - reflexivity.
  - reflexivity.
  - reflexivity.
  - reflexivity.
Defined.

Lemma cmd_run_fork_failure_is_fatal_witness :
  exists pre,
    Forall is_Stdout pre
    /\ stdout_text pre = "[CMD] " +:+ render ["gcc"; "main.c"]
    /\ cmd_run env_nofork (CMD ["gcc"; "main.c"]) w_fresh
       = Exit 1 (after w_fresh (fs w_fresh)
                       (pre ++ [Stderr (panic_text env_nofork 144
                                                   "fork failed")])).
Proof.
  apply (cmd_run_fork_failure_is_fatal
           env_nofork (CMD ["gcc"; "main.c"]) ["gcc"; "main.c"] w_fresh).
  - reflexivity.
  - reflexivity.
  - reflexivity.
Defined.

(** ** Further properties of the command buffer *)

(** X4.  Two calls of [cmd_append] on one command do what one call with
    all the arguments does: whatever the environment, appending [l1 ++ l2]
    is appending [l1] and then [l2] to the result. *)
Theorem cmd_append_composes
        (E : Env) (c : Cmd) (l1 l2 : list string) (w : World) :
  cmd_internal_append E (Some c) (l1 ++ l2) w
  = (c1 <-- cmd_internal_append E (Some c) l1 ;;
     cmd_internal_append E (Some c1) l2) w.
Proof.
  cbn [cmd_internal_append]. revert c w.
  induction l1 as [|a l1 IH]; intros c w; [reflexivity|].
  cbn [app append_loop]. rewrite bind_assoc.
  apply bind_ext. intros c' w'. apply IH.
Qed.

(** X5.  A command built by [cmd_append] from the empty command, then
    printed: while [realloc] succeeds, [cmd_print] writes the rendering
    of the appended tokens, in the order of the call, and nothing else;
    the only other calls are those of [realloc], one for every token, and
    the file system is what it was. *)
Theorem cmd_append_then_print
        (E : Env) (toks : list string) (w : World) :
  toks <> [] ->
  Z.of_nat (length toks) < 2 ^ 60 ->
  (forall b, realloc_ok E b = true) ->
  exists evs,
    (c <-- cmd_internal_append E (Some Cmd_zero) toks ;; cmd_print c) w
    = Return tt (after w (fs w)
                       ((Realloc <$> block_sizes 0 (length toks)) ++ evs))
    /\ Forall is_Stdout evs
    /\ stdout_text evs = render toks.
Proof.
  intros Hne Hlen Hok.
  destruct (append_loop_filled E [] toks Cmd_zero w Hok Hlen filled_zero)
    as (c & Happ & Hcount & Hcap & Htok).
  cbn [app length] in *.
  erewrite bind_Return by (cbn [cmd_internal_append]; apply Happ).
  assert (Hpos : 0 < count c)
    by (destruct toks; [congruence | cbn in Hcount; lia]).
  destruct (cmd_print_spec c toks
              (after w (fs w) (Realloc <$> block_sizes 0 (length toks)))
              Htok Hpos) as (evs & Hrun & Hall & Htxt).
  exists evs. rewrite Hrun, fs_after, after_after. auto.
Qed.

Lemma cmd_append_then_print_witness :
  exists evs,
    (c <-- cmd_internal_append env_ok (Some Cmd_zero) ["gcc"; "a b.c"] ;;
     cmd_print c) w_fresh
    = Return tt (after w_fresh (fs w_fresh)
                       ((Realloc <$> block_sizes 0 (length ["gcc"; "a b.c"]))
                        ++ evs))
    /\ Forall is_Stdout evs
    /\ stdout_text evs = render ["gcc"; "a b.c"].
Proof.
  apply (cmd_append_then_print env_ok ["gcc"; "a b.c"] w_fresh).
  - discriminate.
  - reflexivity.
  - reflexivity.
Defined.

(** X6.  Appending to a command made by [CMD(...)]: its capacity is 0
    and its count is not, so nothing is ever reallocated.  The first
    token appended takes the slot of the NULL terminator, the only slot
    left in the literal array; a second one would be written outside the
    array, which is undefined. *)
Theorem cmd_append_on_literal
        (E : Env) (toks : list string) (a b : string) (w : World) :
  toks <> [] ->
  Z.of_nat (length toks) + 1 < SIZE_MAX1 ->
  cmd_internal_append E (Some (CMD toks)) [a] w
  = Return {| args := Some <$> (toks ++ [a]);
              count := Z.of_nat (length toks) + 1;
              capacity := 0 |} w
  /\ cmd_internal_append E (Some (CMD toks)) [a; b] w = Undefined.
Proof.
  intros Hne Hlen.
  assert (Hn : (0 < length toks)%nat) by (destruct toks; [congruence | cbn; lia]).
  assert (Hone : append_one E (CMD toks) a w
                 = Return {| args := Some <$> (toks ++ [a]);
                             count := Z.of_nat (length toks) + 1;
                             capacity := 0 |} w).
  { unfold append_one, CMD. cbn [count capacity args].
    assert ((Z.of_nat (length toks) =? 0) = false) as ->
        by (apply Z.eqb_neq; lia).
    unfold bind, ret. cbn [count capacity args].
    rewrite length_app, length_fmap. cbn [length].
    assert ((Z.of_nat (length toks) <? Z.of_nat (length toks + 1)) = true)
      as -> by (apply Z.ltb_lt; lia).
    rewrite wrap_small by lia. rewrite Nat2Z.id.
    rewrite insert_app_r_alt by (rewrite length_fmap; lia).
    rewrite length_fmap, Nat.sub_diag. cbn [insert list_insert].
    now rewrite fmap_app. }
  split.
  - cbn [cmd_internal_append append_loop].
    now erewrite bind_Return by apply Hone.
  - cbn [cmd_internal_append append_loop].
    erewrite bind_Return by apply Hone.
    unfold bind at 1. unfold append_one. cbn [count capacity args].
    assert ((Z.of_nat (length toks) + 1 =? 0) = false) as ->
        by (apply Z.eqb_neq; lia).
    unfold bind at 1. unfold ret at 1. cbn [count args].
    rewrite length_fmap, length_app. cbn [length].
    assert ((Z.of_nat (length toks) + 1 <? Z.of_nat (length toks + 1)) = false)
      as -> by (apply Z.ltb_ge; lia).
    reflexivity.
Qed.

Lemma cmd_append_on_literal_witness :
  cmd_internal_append env_ok (Some (CMD ["gcc"; "main.c"])) ["-O2"] w_fresh
  = Return {| args := Some <$> (["gcc"; "main.c"] ++ ["-O2"]);
              count := Z.of_nat (length ["gcc"; "main.c"]) + 1;
              capacity := 0 |} w_fresh
  /\ cmd_internal_append env_ok (Some (CMD ["gcc"; "main.c"])) ["-O2"; "-g"]
                         w_fresh
     = Undefined.
Proof.
  apply (cmd_append_on_literal env_ok ["gcc"; "main.c"] "-O2" "-g" w_fresh).
  - discriminate.
  - reflexivity.
Defined.

(** ** What the target walk leaves alone *)

Section Keeps.

Variable P : gmap string File -> gmap string File -> list Event -> Prop.
Hypothesis P_nil : forall files, P files files [].
Hypothesis P_app :
  forall f0 f1 f2 e1 e2, P f0 f1 e1 -> P f1 f2 e2 -> P f0 f2 (e1 ++ e2).

Lemma keeps_ret {A} (a : A) : keeps P (ret a).
Proof. intros w. cbn. exists []. now rewrite after_nil. Qed.

Lemma keeps_exit {A} (code : Z) : keeps P (exit (A := A) code).
Proof. intros w. cbn. exists []. now rewrite after_nil. Qed.

Lemma keeps_undefined {A} : keeps P (undefined (A := A)).
Proof. intros w. exact I. Qed.

Lemma keeps_get_file_mtime (path : string) : keeps P (get_file_mtime path).
Proof. intros w. cbn. exists []. now rewrite after_nil. Qed.

Lemma keeps_bind {A B} (m : M A) (k : A -> M B) :
  keeps P m -> (forall a, keeps P (k a)) -> keeps P (bind m k).
Proof.
  intros Hm Hk w. specialize (Hm w). unfold bind.
  destruct (m w) as [a w1|c1 w1|w1|]; cbn in Hm |- *; try exact Hm.
  destruct Hm as (e1 & Hw1 & HP1). specialize (Hk a w1).
  destruct (outcome_world (k a w1)) as [w'|]; [|exact I].
  destruct Hk as (e2 & Hw' & HP2).
  exists (e1 ++ e2). split; [|eauto].
  transitivity (after (after w (fs w1) e1) (fs w') e2);
    [now rewrite <- Hw1 | apply after_after].
Qed.

End Keeps.

Lemma walk_effect_nil files : walk_effect files files [].
Proof. split; [constructor | reflexivity]. Qed.

Lemma walk_effect_app f0 f1 f2 e1 e2 :
  walk_effect f0 f1 e1 -> walk_effect f1 f2 e2 -> walk_effect f0 f2 (e1 ++ e2).
Proof.
  intros [H1 K1] [H2 K2]. split; [now apply Forall_app|].
  rewrite spawns_app. intros [Hs1 Hs2]%app_eq_nil.
  now rewrite K2, K1.
Qed.

Lemma walk_emit (e : Event) :
  walk_event e -> spawns [e] = [] -> keeps walk_effect (emit e).
Proof.
  intros He Hs w. cbn. exists [e]. split; [reflexivity|].
  split; [now constructor | reflexivity].
Qed.

(** The lemmas of [Keeps] at [walk_effect]. *)
Ltac walk_bind :=
  apply (keeps_bind walk_effect walk_effect_app).
Ltac walk_ret := apply (keeps_ret walk_effect walk_effect_nil).
Ltac walk_print := apply walk_emit; [exact I | reflexivity].

Lemma walk_panic {A} (file : string) (line : Z) (msg : string) :
  keeps walk_effect (panic (A := A) file line msg).
Proof.
  unfold panic. walk_bind; [walk_print|].
  intros _. apply (keeps_exit walk_effect walk_effect_nil).
Qed.

Lemma walk_spawn E (c : Cmd) : keeps walk_effect (spawn E c).
Proof.
  intros w. unfold spawn.
  destruct (fork_fails E (fs w)); [apply walk_panic|].
  destruct (cmd_tokens c) as [argv|]; [|exact I].
  destruct (child E argv (fs w)) as [st files]. cbn.
  exists [Spawn argv]. split; [reflexivity|].
  split; [now constructor | discriminate].
Qed.

Lemma walk_cmd_print_loop (c : Cmd) (n : nat) (i : Z) :
  keeps walk_effect (cmd_print_loop c n i).
Proof.
  revert i. induction n as [|n IH]; intros i; cbn.
  - walk_ret.
  - destruct (args c !! Z.to_nat i) as [[a|]|];
      try apply keeps_undefined.
    walk_bind.
    + destruct (has_space a); walk_print.
    + intros _. walk_bind; [|intros _; apply IH].
      destruct (i + 1 <? count c); [walk_print | walk_ret].
Qed.

Lemma walk_cmd_run E (c : Cmd) : keeps walk_effect (cmd_run E c).
Proof.
  unfold cmd_run. destruct (count c =? 0); [walk_ret|].
  walk_bind; [walk_print|]. intros _.
  walk_bind.
  { unfold cmd_print. destruct (count c =? 0); [walk_ret|].
    walk_bind; [apply walk_cmd_print_loop|]. intros _. walk_print. }
  intros _. walk_bind; [apply walk_spawn|]. intros [code|sig|].
  - destruct (negb (code =? 0)); [|walk_ret].
    walk_bind; [walk_print|]. intros _. walk_ret.
  - apply walk_panic.
  - walk_ret.
Qed.

Lemma walk_finish_target E out (c : option Cmd) (mtime : Z) (nr : bool) :
  keeps walk_effect (finish_target E out c mtime nr).
Proof.
  unfold finish_target, rebuild, no_command.
  destruct nr, c as [c|]; try walk_ret; try walk_print.
  - walk_bind; [apply walk_cmd_run|]. intros ok.
    destruct (ok =? 0); [apply walk_panic | walk_ret].
  - destruct (mtime =? 0); [apply walk_panic | walk_ret].
Qed.

Lemma walk_build_deps (build : Target -> M unit) mtime ds nr :
  Forall (fun d => keeps walk_effect (build d)) ds ->
  keeps walk_effect (build_deps build mtime ds nr).
Proof.
  intros H. revert nr. induction H as [|d ds Hd _ IH]; intros nr; cbn.
  - walk_ret.
  - walk_bind; [exact Hd|]. intros _.
    walk_bind; [apply keeps_get_file_mtime, walk_effect_nil|].
    intros m. apply IH.
Qed.

Lemma walk_build_target E (t : Target) : keeps walk_effect (build_target E t).
Proof.
  induction t as [out ds c IH] using Target_deps_ind.
  rewrite build_target_unfold. cbn [output deps cmd].
  walk_bind; [walk_print|]. intros _.
  walk_bind; [apply keeps_get_file_mtime, walk_effect_nil|]. intros mtime.
  walk_bind.
  { unfold stale_on_entry. destruct c; [|walk_ret].
    walk_bind; [apply keeps_get_file_mtime, walk_effect_nil|].
    intros m. walk_ret. }
  intros nr1. walk_bind; [|intros nr2; apply walk_finish_target].
  destruct ds as [l|]; cbn; [|walk_ret].
  now apply walk_build_deps.
Qed.

Lemma stays_bind {A B} (m : M A) (k : A -> M B) :
  stays m -> (forall a, stays (k a)) -> stays (bind m k).
Proof.
  intros Hm Hk w w'. unfold bind.
  destruct (m w) as [a w1|c1 w1|w1|] eqn:Hmw; try discriminate.
  - apply Hk.
  - now apply Hm in Hmw.
Qed.

Lemma stays_emit (e : Event) : stays (emit e).
Proof. intros w w'. discriminate. Qed.

Lemma stays_ret {A} (a : A) : stays (ret a).
Proof. intros w w'. discriminate. Qed.

Lemma stays_panic {A} (file : string) (line : Z) (msg : string) :
  stays (panic (A := A) file line msg).
Proof. intros w w'. discriminate. Qed.

Lemma stays_get_file_mtime (path : string) : stays (get_file_mtime path).
Proof. intros w w'. discriminate. Qed.

Lemma stays_cmd_print_loop (c : Cmd) (n : nat) (i : Z) :
  stays (cmd_print_loop c n i).
Proof.
  revert i. induction n as [|n IH]; intros i; cbn.
  - apply stays_ret.
  - destruct (args c !! Z.to_nat i) as [[a|]|];
      try (intros w w'; discriminate).
    apply stays_bind.
    + destruct (has_space a); apply stays_emit.
    + intros _. apply stays_bind; [|intros _; apply IH].
      destruct (i + 1 <? count c); [apply stays_emit | apply stays_ret].
Qed.

Lemma stays_cmd_run E (c : Cmd) : stays (cmd_run E c).
Proof.
  unfold cmd_run. destruct (count c =? 0); [apply stays_ret|].
  apply stays_bind; [apply stays_emit|]. intros _.
  apply stays_bind.
  { unfold cmd_print. destruct (count c =? 0); [apply stays_ret|].
    apply stays_bind; [apply stays_cmd_print_loop|].
    intros _. apply stays_emit. }
  intros _. apply stays_bind.
  { intros w w'. unfold spawn.
    destruct (fork_fails E (fs w)); [discriminate|].
    destruct (cmd_tokens c) as [argv|]; [|discriminate].
    now destruct (child E argv (fs w)). }
  intros [code|sig|].
  - destruct (negb (code =? 0)); [|apply stays_ret].
    apply stays_bind; [apply stays_emit|]. intros _. apply stays_ret.
  - apply stays_panic.
  - apply stays_ret.
Qed.

Lemma stays_build_deps (build : Target -> M unit) mtime ds nr :
  Forall (fun d => stays (build d)) ds ->
  stays (build_deps build mtime ds nr).
Proof.
  intros H. revert nr. induction H as [|d ds Hd _ IH]; intros nr; cbn.
  - apply stays_ret.
  - apply stays_bind; [exact Hd|]. intros _.
    apply stays_bind; [apply stays_get_file_mtime|]. intros m. apply IH.
Qed.

Lemma stays_build_target E (t : Target) : stays (build_target E t).
Proof.
  induction t as [out ds c IH] using Target_deps_ind.
  rewrite build_target_unfold. cbn [output deps cmd].
  apply stays_bind; [apply stays_emit|]. intros _.
  apply stays_bind; [apply stays_get_file_mtime|]. intros mtime.
  apply stays_bind.
  { unfold stale_on_entry. destruct c; [|apply stays_ret].
    apply stays_bind; [apply stays_get_file_mtime|].
    intros m. apply stays_ret. }
  intros nr1. apply stays_bind.
  - destruct ds as [l|]; cbn; [|apply stays_ret].
    now apply stays_build_deps.
  - intros nr2. unfold finish_target, rebuild, no_command.
    destruct nr2, c as [c|]; try apply stays_ret; try apply stays_emit.
    + apply stays_bind; [apply stays_cmd_run|]. intros ok.
      destruct (ok =? 0); [apply stays_panic | apply stays_ret].
    + destruct (mtime =? 0); [apply stays_panic | apply stays_ret].
Qed.

(** X7.  However a build ends, for every graph and every environment:
    the calls it has added are entries into targets, lines on the two
    streams and children spawned; it never reallocates, renames, unlinks
    or executes a new image, and never ends with the image replaced; and
    if no child was spawned the file system is what it was. *)
Theorem build_target_only_spawns (E : Env) (t : Target) (w : World) :
  match outcome_world (build_target E t w) with
  | Some w' =>
      exists evs,
        w' = after w (fs w') evs
        /\ Forall walk_event evs
        /\ (spawns evs = [] -> fs w' = fs w)
  | None => True
  end
  /\ (forall w', build_target E t w <> Replaced w').
Proof.
  split; [|apply stays_build_target].
  pose proof (walk_build_target E t w) as H.
  destruct (outcome_world (build_target E t w)) as [w'|]; [|exact I].
  destruct H as (evs & Hw' & Hall & Hfs). now exists evs.
Qed.

(** ** Nothing to do *)

Lemma build_deps_settled E (mtime : Z) (l : list Target) :
  Forall (fun d => forall w,
              settled E (fs w) d = true ->
              exists evs,
                build_target E d w = Return tt (after w (fs w) evs)
                /\ spawns evs = []
                /\ visits evs = walk d
                /\ stdout_text evs = notices d) l ->
  forall nr w,
    forallb (settled E (fs w)) l = true ->
    exists evs b,
      build_deps (build_target E) mtime l nr w = Return b (after w (fs w) evs)
      /\ spawns evs = []
      /\ visits evs = flat_map walk l
      /\ stdout_text evs = fold_right (fun d acc => notices d +:+ acc) "" l
      /\ (forallb (fun d => mtime_of (fs w) (output d) <=? mtime) l = true ->
          b = nr).
Proof.
  induction 1 as [|d l Hd _ IH]; intros nr w Hall.
  - exists [], nr. cbn. unfold ret. rewrite after_nil. auto.
  - cbn [forallb] in Hall. apply andb_prop in Hall as [Hsd Hsl].
    destruct (Hd w Hsd) as (e1 & Hrun & Hsp1 & Hv1 & Ho1).
    cbn [build_deps]. erewrite bind_Return by apply Hrun.
    unfold get_file_mtime at 1. unfold bind at 1. rewrite fs_after.
    destruct (IH (if mtime_of (fs w) (output d) >? mtime then true else nr)
                 (after w (fs w) e1) Hsl)
      as (e2 & b & Hrest & Hsp2 & Hv2 & Ho2 & Hb).
    rewrite Hrest, fs_after, after_after.
    exists (e1 ++ e2), b. split; [reflexivity|].
    rewrite spawns_app, visits_app, stdout_text_app, Hsp1, Hsp2, Hv1, Hv2,
      Ho1, Ho2.
    repeat split; try reflexivity.
    cbn [forallb]. intros [Hle Hl]%andb_prop. rewrite fs_after in Hb.
    rewrite (Hb Hl).
    assert ((mtime_of (fs w) (output d) >? mtime) = false) as ->;
      [|reflexivity].
    rewrite Z.gtb_ltb. apply Z.ltb_ge. now apply Z.leb_le.
Qed.

Lemma build_target_settled E (t : Target) w :
  settled E (fs w) t = true ->
  exists evs,
    build_target E t w = Return tt (after w (fs w) evs)
    /\ spawns evs = []
    /\ visits evs = walk t
    /\ stdout_text evs = notices t.
Proof.
  revert w. induction t as [out ds c IH] using Target_deps_ind.
  intros w Hs. cbn [settled] in Hs.
  apply andb_prop in Hs as [Hs Hdeps]. apply andb_prop in Hs as [Hm Hc].
  apply negb_true_iff, Z.eqb_neq in Hm.
  set (mtime := mtime_of (fs w) out) in *.
  rewrite build_target_unfold. cbn [output deps cmd].
  erewrite bind_Return by apply emit_after.
  unfold get_file_mtime at 1. unfold bind at 1. rewrite fs_after. fold mtime.
  set (w0 := after w (fs w) [Visit out]).
  assert (Hnr1 : stale_on_entry E c mtime w0 = Return false w0).
  { unfold stale_on_entry.
    assert ((mtime =? 0) = false) as -> by now apply Z.eqb_neq.
    destruct c as [c|]; [|reflexivity].
    apply andb_prop in Hc as [Hsrc _].
    unfold bind, get_file_mtime, ret. unfold w0. rewrite fs_after.
    assert ((mtime_of (fs w) (source_path E) >? mtime) = false) as ->;
      [|reflexivity].
    rewrite Z.gtb_ltb. apply Z.ltb_ge. now apply Z.leb_le. }
  erewrite bind_Return by apply Hnr1.
  assert (Hwalk : exists evs b,
             walk_deps (build_target E) mtime ds false w0
             = Return b (after w0 (fs w) evs)
             /\ spawns evs = []
             /\ visits evs = match ds with
                             | Some l => flat_map walk l
                             | None => []
                             end
             /\ stdout_text evs
                = match ds with
                  | Some l => fold_right (fun d acc => notices d +:+ acc) "" l
                  | None => ""
                  end
             /\ (is_Some c -> b = false)).
  { destruct ds as [l|]; cbn [walk_deps].
    - destruct (build_deps_settled E mtime l IH false w0 Hdeps)
        as (evs & b & Hrun & Hsp & Hv & Ho & Hb).
      exists evs, b. unfold w0 in *. rewrite fs_after in *.
      repeat split; try assumption.
      intros [c' ->]. apply Hb.
      now apply andb_prop in Hc as [_ Hle].
    - exists [], false. unfold ret, w0. rewrite after_after, app_nil_r. auto. }
  destruct Hwalk as (evs & b & Hrun & Hsp & Hv & Ho & Hb).
  erewrite bind_Return by apply Hrun.
  unfold w0. rewrite after_after.
  destruct c as [c|].
  - rewrite (Hb ltac:(eauto)). cbn [finish_target].
    unfold printf. rewrite emit_after, fs_after, after_after.
    eexists. split; [reflexivity|].
    rewrite !spawns_app, !visits_app, !stdout_text_app, Hsp, Hv, Ho.
    cbn. rewrite app_nil_r, string_app_nil_r. auto.
  - assert (Hfin : forall w1, finish_target E out None mtime b w1 = Return tt w1).
    { intros w1. unfold finish_target, no_command. destruct b; [|reflexivity].
      assert ((mtime =? 0) = false) as -> by now apply Z.eqb_neq.
      reflexivity. }
    rewrite Hfin. eexists. split; [reflexivity|].
    rewrite !spawns_app, !visits_app, !stdout_text_app, Hsp, Hv, Ho.
    cbn. rewrite string_app_nil_r. auto.
Qed.

(** X8.  A settled graph is skipped.  When every output of the graph
    has a time stamp and no target with a command is older than the
    build definition or than one of its dependencies, the build returns,
    having entered every target of the walk, spawned nothing and left
    the file system as it was; what it has written is one notice for
    every target with a command, dependencies first. *)
Theorem settled_graph_is_skipped (E : Env) (t : Target) (w : World) :
  settled E (fs w) t = true ->
  exists evs,
    build_target E t w = Return tt (after w (fs w) evs)
    /\ spawns evs = []
    /\ visits evs = walk t
    /\ stdout_text evs = notices t.
Proof. apply build_target_settled. Qed.

Lemma settled_graph_is_skipped_witness :
  exists evs,
    build_target env_ok main_target w_built
    = Return tt (after w_built (fs w_built) evs)
    /\ spawns evs = []
    /\ visits evs = walk main_target
    /\ stdout_text evs = notices main_target.
Proof.
  apply (settled_graph_is_skipped env_ok main_target w_built).
  vm_compute. reflexivity.
Defined.

(** ** One build step *)

(** X9.  A stale target without dependencies whose command has tokens
    and whose child exits.  With the exit code 0 the build returns and
    the file system is the one the child left.  With any other code the
    tool exits with code 1, and after the line of [cmd_run] with the code
    the last thing written is the panic that names the output of the
    target. *)
Theorem build_step_succeeds_or_is_fatal
        (E : Env) (t : Target) (c : Cmd) (toks : list string) (w : World)
        (code : Z) (files : gmap string File) :
  deps t = None ->
  cmd t = Some c ->
  cmd_tokens c = Some toks ->
  0 < count c ->
  (mtime_of (fs w) (output t) = 0
   \/ mtime_of (fs w) (output t) < mtime_of (fs w) (source_path E)) ->
  fork_fails E (fs w) = false ->
  child E toks (fs w) = (WExited code, files) ->
  exists pre,
    Forall is_Stdout pre
    /\ stdout_text pre = "[CMD] " +:+ render toks
    /\ build_target E t w
       = if code =? 0 then
           Return tt (after w files (Visit (output t) :: pre ++ [Spawn toks]))
         else
           Exit 1 (after w files
                         (Visit (output t) :: pre
                          ++ [Spawn toks;
                              Stderr ("Command failed with exit code "
                                      +:+ pretty code +:+ newline);
                              Stderr (panic_text E 254
                                        ("Failed to build " +:+ output t
                                         +:+ newline))])).
Proof.
  intros Hdeps Hcmd Htok Hpos Hstale Hfork Hchild.
  rewrite build_target_stale; cycle 1.
  { destruct Hstale as [H|H]; [now left | right].
    split; [rewrite Hcmd; eauto | exact H]. }
  rewrite Hdeps, Hcmd. cbn [walk_deps finish_target].
  unfold ret at 1. unfold bind at 1. unfold rebuild.
  destruct (cmd_run_spawned E c toks (after w (fs w) [Visit (output t)])
                            _ files Htok Hpos Hfork Hchild)
    as (pre & Hall & Htxt & Hrun).
  exists pre. split; [exact Hall|]. split; [exact Htxt|].
  unfold bind at 1. rewrite Hrun, after_after. unfold after_wait.
  destruct (code =? 0); cbn [negb].
  - reflexivity.
  - unfold eprintf. erewrite bind_Return by apply emit_after.
    unfold ret at 1. cbn [Z.eqb].
    unfold panic, eprintf. erewrite bind_Return by apply emit_after.
    unfold exit. rewrite !fs_after, !after_after.
    cbn [app]. now rewrite <- !app_assoc.
Qed.

Lemma build_step_succeeds_or_is_fatal_witness :
  exists pre,
    Forall is_Stdout pre
    /\ stdout_text pre = "[CMD] " +:+ render [CC; "-c"; "lib.c"; "-o"; "lib.o"]
    /\ build_target env_fail lib_o w_edited
       = if 1 =? 0 then
           Return tt (after w_edited
                            (write_last "partial"
                                        [CC; "-c"; "lib.c"; "-o"; "lib.o"]
                                        (fs w_edited))
                            (Visit (output lib_o) :: pre
                             ++ [Spawn [CC; "-c"; "lib.c"; "-o"; "lib.o"]]))
         else
           Exit 1 (after w_edited
                         (write_last "partial"
                                     [CC; "-c"; "lib.c"; "-o"; "lib.o"]
                                     (fs w_edited))
                         (Visit (output lib_o) :: pre
                          ++ [Spawn [CC; "-c"; "lib.c"; "-o"; "lib.o"];
                              Stderr ("Command failed with exit code "
                                      +:+ pretty 1 +:+ newline);
                              Stderr (panic_text env_fail 254
                                        ("Failed to build " +:+ output lib_o
                                         +:+ newline))])).
Proof.
  apply (build_step_succeeds_or_is_fatal
           env_fail lib_o (CMD [CC; "-c"; "lib.c"; "-o"; "lib.o"])
           [CC; "-c"; "lib.c"; "-o"; "lib.o"] w_edited 1).
  - reflexivity.
  - reflexivity.
  - reflexivity.
  - reflexivity.
  - right. vm_compute. reflexivity.
  - reflexivity.
  - reflexivity.
Defined.

(** X10.  A stale target whose command has no token is passed over:
    once its dependencies are built, [cmd_run] returns 1 without a
    child, and the build returns as after a rebuild, with no notice and
    no panic, an output that was missing being as missing as before. *)
Theorem empty_command_passes_for_a_rebuild
        (E : Env) (t : Target) (c : Cmd) (w : World) :
  cmd t = Some c ->
  count c = 0 ->
  (mtime_of (fs w) (output t) = 0
   \/ mtime_of (fs w) (output t) < mtime_of (fs w) (source_path E)) ->
  build_target E t w
  = (walk_deps (build_target E) (mtime_of (fs w) (output t)) (deps t) true ;;;
     ret tt) (after w (fs w) [Visit (output t)])
  /\ (deps t = None ->
      build_target E t w = Return tt (after w (fs w) [Visit (output t)])).
Proof.
  intros Hcmd Hcount Hstale.
  assert (Heq : build_target E t w
                = (walk_deps (build_target E) (mtime_of (fs w) (output t))
                             (deps t) true ;;;
                   ret tt) (after w (fs w) [Visit (output t)])).
  { rewrite build_target_stale; cycle 1.
    { destruct Hstale as [H|H]; [now left | right].
      split; [rewrite Hcmd; eauto | exact H]. }
    rewrite Hcmd. cbn [finish_target]. apply bind_ext. intros _ w'.
    unfold rebuild. now erewrite bind_Return by (now apply cmd_run_empty). }
  split; [exact Heq|].
  intros Hdeps. rewrite Heq, Hdeps. reflexivity.
Qed.

Lemma empty_command_passes_for_a_rebuild_witness :
  build_target env_ok phony w_fresh
  = (walk_deps (build_target env_ok) (mtime_of (fs w_fresh) (output phony))
               (deps phony) true ;;;
     ret tt) (after w_fresh (fs w_fresh) [Visit (output phony)])
  /\ (deps phony = None ->
      build_target env_ok phony w_fresh
      = Return tt (after w_fresh (fs w_fresh) [Visit (output phony)])).
Proof.
  apply (empty_command_passes_for_a_rebuild env_ok phony Cmd_zero w_fresh).
  - reflexivity.
  - reflexivity.
  - left. vm_compute. reflexivity.
Defined.

(** ** Further properties of the bootstrap *)

Lemma bootstrap_stale E (binary_path : string) (rest : list string) w :
  mtime_of (fs w) binary_path < mtime_of (fs w) (source_path E) ->
  go_build_urself E binary_path rest w
  = (r <-- rename E binary_path (old_binary_path binary_path) ;;
     if negb (r =? 0) then
       panic (source_path E) 194 "Couldnt rename old binary"
     else
       c <-- cmd_internal_append E (Some Cmd_zero)
               [CC; source_path E; "-o"; binary_path] ;;
       ok <-- cmd_run E c ;;
       (if ok =? 0 then
          rename E (old_binary_path binary_path) binary_path ;;; ret tt
        else ret tt) ;;;
       unlink E (old_binary_path binary_path) ;;;
       printf ("[INFO] Restarting " +:+ binary_path +:+ "..." +:+ newline) ;;;
       execvp E binary_path (binary_path :: rest) ;;;
       panic (source_path E) 209 "How did we get here?")
      (after w (fs w) [Stdout "[INFO] rebuilding"]).
Proof.
  intros Hstale. unfold go_build_urself.
  unfold get_file_mtime at 1. unfold bind at 1.
  unfold get_file_mtime at 1. unfold bind at 1.
  assert ((mtime_of (fs w) (source_path E) <=? mtime_of (fs w) binary_path)
          = false) as -> by (apply Z.leb_gt; lia).
  unfold printf at 1. now erewrite bind_Return by apply emit_after.
Qed.

(** X11.  When the build definition is newer and the binary cannot be
    renamed, because nothing is found at the path the tool was called by
    or because the system refuses, the bootstrap is fatal: after the
    announcement and the failed rename the tool panics and exits with
    code 1, the file system untouched and no compiler run. *)
Theorem bootstrap_rename_failure_is_fatal
        (E : Env) (binary_path : string) (rest : list string) (w : World) :
  mtime_of (fs w) binary_path < mtime_of (fs w) (source_path E) ->
  (fs w !! binary_path = None
   \/ rename_fault E binary_path (old_binary_path binary_path) (fs w) = true) ->
  go_build_urself E binary_path rest w
  = Exit 1 (after w (fs w)
                  [Stdout "[INFO] rebuilding";
                   Rename binary_path (old_binary_path binary_path);
                   Stderr (panic_text E 194 "Couldnt rename old binary")]).
Proof.
  intros Hstale Hfail. rewrite bootstrap_stale by exact Hstale.
  assert (Hren : rename E binary_path (old_binary_path binary_path)
                        (after w (fs w) [Stdout "[INFO] rebuilding"])
                 = Return (-1)
                          (after w (fs w)
                                 [Stdout "[INFO] rebuilding";
                                  Rename binary_path
                                         (old_binary_path binary_path)])).
  { unfold rename. rewrite fs_after.
    destruct (rename_fault E binary_path (old_binary_path binary_path) (fs w))
      eqn:Hf; [now rewrite after_after|].
    destruct Hfail as [Hnone | Hfault]; [|discriminate].
    now rewrite Hnone, after_after. }
  erewrite bind_Return by apply Hren. cbn [Z.eqb negb].
  unfold panic, eprintf. erewrite bind_Return by apply emit_after.
  unfold exit. now rewrite fs_after, after_after.
Qed.

Lemma bootstrap_rename_failure_is_fatal_witness :
  go_build_urself env_ok "build" [] w_stale_tool
  = Exit 1 (after w_stale_tool (fs w_stale_tool)
                  [Stdout "[INFO] rebuilding";
                   Rename "build" (old_binary_path "build");
                   Stderr (panic_text env_ok 194 "Couldnt rename old binary")]).
Proof.
  apply (bootstrap_rename_failure_is_fatal env_ok "build" [] w_stale_tool).
  - vm_compute. reflexivity.
  - left. vm_compute. reflexivity.
Defined.



(** The bootstrap when the binary is renamed and the compiler exits with
    code 0: up to [execvp]. *)
Lemma bootstrap_compiled E (binary_path : string) (rest : list string) w
      (f : File) (files : gmap string File) :
  mtime_of (fs w) binary_path < mtime_of (fs w) (source_path E) ->
  fs w !! binary_path = Some f ->
  rename_fault E binary_path (old_binary_path binary_path) (fs w) = false ->
  (forall b, realloc_ok E b = true) ->
  fork_fails E (<[old_binary_path binary_path := f]>
                  (delete binary_path (fs w))) = false ->
  child E [CC; source_path E; "-o"; binary_path]
        (<[old_binary_path binary_path := f]> (delete binary_path (fs w)))
  = (WExited 0, files) ->
  exists pre,
    Forall is_Stdout pre
    /\ stdout_text pre
       = "[CMD] " +:+ render [CC; source_path E; "-o"; binary_path]
    /\ go_build_urself E binary_path rest w
       = (execvp E binary_path (binary_path :: rest) ;;;
          panic (source_path E) 209 "How did we get here?")
           (after w
                  (if unlink_fault E (old_binary_path binary_path) files
                   then files
                   else delete (old_binary_path binary_path) files)
                  (Stdout "[INFO] rebuilding"
                   :: Rename binary_path (old_binary_path binary_path)
                   :: (Realloc <$> block_sizes 0 4) ++ pre
                   ++ [Spawn [CC; source_path E; "-o"; binary_path];
                       Unlink (old_binary_path binary_path);
                       Stdout ("[INFO] Restarting " +:+ binary_path
                               +:+ "..." +:+ newline)])).
Proof.
  intros Hstale Hbin Hfault Hok Hfork Hchild.
  set (old := old_binary_path binary_path) in *.
  set (toks := [CC; source_path E; "-o"; binary_path]) in *.
  set (fs1 := <[old := f]> (delete binary_path (fs w))) in *.
  rewrite bootstrap_stale by exact Hstale. fold old toks.
  assert (Hren : rename E binary_path old
                        (after w (fs w) [Stdout "[INFO] rebuilding"])
                 = Return 0 (after w fs1 [Stdout "[INFO] rebuilding";
                                          Rename binary_path old])).
  { unfold rename. rewrite fs_after, Hfault, Hbin. now rewrite after_after. }
  erewrite bind_Return by apply Hren. cbn [Z.eqb negb].
  set (w1 := after w fs1 [Stdout "[INFO] rebuilding"; Rename binary_path old]).
  destruct (append_loop_filled E [] toks Cmd_zero w1 Hok
                               ltac:(cbn; lia) filled_zero)
    as (c & Happ & Hcount & Hcap & Htok).
  cbn [app length] in Happ, Hcount, Hcap, Htok.
  erewrite bind_Return by (cbn [cmd_internal_append]; apply Happ).
  unfold w1. rewrite fs_after, after_after.
  set (w2 := after w fs1 _).
  destruct (cmd_run_spawned E c toks w2 _ files Htok
                            ltac:(rewrite Hcount; cbn; lia) Hfork Hchild)
    as (pre & Hall & Htxt & Hrun).
  exists pre. split; [exact Hall|]. split; [exact Htxt|].
  cbn [after_wait Z.eqb negb] in Hrun. unfold ret in Hrun.
  erewrite bind_Return by apply Hrun. cbn [Z.eqb].
  unfold ret at 1. unfold bind at 1.
  unfold w2. rewrite after_after.
  set (w3 := after w files _).
  assert (Hunl : exists r,
             unlink E old w3
             = Return r (after w3 (if unlink_fault E old files then files
                                   else delete old files) [Unlink old])).
  { unfold unlink, w3. rewrite fs_after.
    destruct (unlink_fault E old files); [now exists (-1)|].
    destruct (files !! old) eqn:Hold; [now exists 0|].
    exists (-1). now rewrite delete_id. }
  destruct Hunl as (r & Hunl).
  erewrite bind_Return by apply Hunl.
  unfold printf. erewrite bind_Return by apply emit_after.
  unfold w3. rewrite fs_after, !after_after.
  cbn [app]. rewrite <- !app_assoc. reflexivity.
Qed.

(** X13.  When the build definition is newer, the binary is renamed to
    the backup path and the compiler exits with code 0, nothing is
    renamed back: the backup path is unlinked (the file there is gone
    unless the system refuses), the restart is announced and [execvp] is
    called on the binary path with the original arguments over the file
    system the compiler left; the image is replaced, or the tool panics
    if [execvp] returns. *)
Theorem bootstrap_replaces_image_after_compile
        (E : Env) (binary_path : string) (rest : list string) (w : World)
        (f : File) (files : gmap string File) :
  mtime_of (fs w) binary_path < mtime_of (fs w) (source_path E) ->
  fs w !! binary_path = Some f ->
  rename_fault E binary_path (old_binary_path binary_path) (fs w) = false ->
  (forall b, realloc_ok E b = true) ->
  fork_fails E (<[old_binary_path binary_path := f]>
                  (delete binary_path (fs w))) = false ->
  child E [CC; source_path E; "-o"; binary_path]
        (<[old_binary_path binary_path := f]> (delete binary_path (fs w)))
  = (WExited 0, files) ->
  exists pre,
    Forall is_Stdout pre
    /\ let old := old_binary_path binary_path in
       let files' := if unlink_fault E old files then files
                     else delete old files in
       let evs :=
         Stdout "[INFO] rebuilding" :: Rename binary_path old
         :: (Realloc <$> block_sizes 0 4) ++ pre
         ++ [Spawn [CC; source_path E; "-o"; binary_path];
             Unlink old;
             Stdout ("[INFO] Restarting " +:+ binary_path +:+ "..."
                     +:+ newline);
             Execvp binary_path (binary_path :: rest)] in
       go_build_urself E binary_path rest w
       = if execvp_ok E binary_path (binary_path :: rest) files' then
           Replaced (after w files' evs)
         else
           Exit 1 (after w files'
                         (evs ++ [Stderr (panic_text E 209
                                            "How did we get here?")])).
Proof.
  intros Hstale Hbin Hfault Hok Hfork Hchild.
  destruct (bootstrap_compiled E binary_path rest w f files
                               Hstale Hbin Hfault Hok Hfork Hchild)
    as (pre & Hall & _ & Hrun).
  exists pre. split; [exact Hall|]. cbn zeta. rewrite Hrun.
  unfold bind at 1. unfold execvp. cbn zeta. rewrite fs_after, after_after.
  destruct (execvp_ok E binary_path (binary_path :: rest) _).
  - cbn [app]. now rewrite <- !app_assoc.
  - unfold panic, eprintf. erewrite bind_Return by apply emit_after.
    unfold exit. rewrite fs_after, after_after.
    cbn [app]. now rewrite <- !app_assoc.
Qed.

Lemma bootstrap_replaces_image_after_compile_witness :
  exists pre,
    Forall is_Stdout pre
    /\ let old := old_binary_path "./build" in
       let files' :=
         if unlink_fault env_ok old
              (write_last "object" [CC; "build.c"; "-o"; "./build"]
                 (<[old := mkFile 4 "tool"]>
                    (delete "./build" (fs w_stale_tool))))
         then write_last "object" [CC; "build.c"; "-o"; "./build"]
                (<[old := mkFile 4 "tool"]>
                   (delete "./build" (fs w_stale_tool)))
         else delete old
                (write_last "object" [CC; "build.c"; "-o"; "./build"]
                   (<[old := mkFile 4 "tool"]>
                      (delete "./build" (fs w_stale_tool)))) in
       let evs :=
         Stdout "[INFO] rebuilding" :: Rename "./build" old
         :: (Realloc <$> block_sizes 0 4) ++ pre
         ++ [Spawn [CC; source_path env_ok; "-o"; "./build"];
             Unlink old;
             Stdout ("[INFO] Restarting " +:+ "./build" +:+ "..."
                     +:+ newline);
             Execvp "./build" ["./build"; "-j"]] in
       go_build_urself env_ok "./build" ["-j"] w_stale_tool
       = if execvp_ok env_ok "./build" ["./build"; "-j"] files' then
           Replaced (after w_stale_tool files' evs)
         else
           Exit 1 (after w_stale_tool files'
                         (evs ++ [Stderr (panic_text env_ok 209
                                            "How did we get here?")])).
Proof.
  apply (bootstrap_replaces_image_after_compile
           env_ok "./build" ["-j"] w_stale_tool (mkFile 4 "tool")).
  - vm_compute. reflexivity.
  - vm_compute. reflexivity.
  - reflexivity.
  - reflexivity.
  - reflexivity.
  - reflexivity.
Defined.

(** ** The buffer of the backup path *)

Lemma substring_0_length (n : nat) (s : string) :
  (String.length (substring 0 n s) <= n)%nat.
Proof.
  revert s. induction n as [|n IH]; intros [|a s]; cbn; try lia.
  specialize (IH s). lia.
Qed.

Lemma substring_0_all (n : nat) (s : string) :
  (String.length s <= n)%nat -> substring 0 n s = s.
Proof.
  revert s. induction n as [|n IH]; intros [|a s]; cbn; try reflexivity;
    try lia.
  intros H. f_equal. apply IH. lia.
Qed.

Lemma substring_0_app (n : nat) (a b : string) :
  (n <= String.length a)%nat -> substring 0 n (a +:+ b) = substring 0 n a.
Proof.
  revert a. induction n as [|n IH]; intros [|x a]; cbn; try lia.
  - intros _. now destruct b.
  - reflexivity.
  - intros H. rewrite string_app_cons. cbn. f_equal. apply IH. lia.
Qed.

(** X14.  The backup path is what fits the buffer of 1024 bytes: it is
    never longer than 1023 characters; it is the binary path followed by
    .old when that fits, which is when the binary path has at most 1019
    characters; from 1023 characters on the suffix is lost altogether,
    and for a binary path of exactly 1023 characters the backup path is
    the binary path itself. *)
Theorem old_binary_path_is_cut_to_the_buffer (binary_path : string) :
  (String.length (old_binary_path binary_path) <= 1023)%nat
  /\ ((String.length binary_path <= 1019)%nat ->
      old_binary_path binary_path = binary_path +:+ ".old")
  /\ ((1023 <= String.length binary_path)%nat ->
      old_binary_path binary_path = substring 0 1023 binary_path)
  /\ (String.length binary_path = 1023%nat ->
      old_binary_path binary_path = binary_path).
Proof.
  unfold old_binary_path, snprintf.
  replace (1024 - 1)%nat with 1023%nat by reflexivity.
  split; [apply substring_0_length|]. split; [|split].
  - intros H. apply substring_0_all.
    rewrite string_app_length.
    replace (String.length ".old") with 4%nat by reflexivity. lia.
  - intros H. now apply substring_0_app.
  - intros H. rewrite substring_0_app by lia.
    apply substring_0_all. lia.
Qed.

(** X15.  When the backup path is the binary path itself, as it is for a
    binary path of 1023 characters, a bootstrap whose compiler exits with
    code 0 unlinks the binary it has just had compiled: unless the system
    refuses the unlink, no file is left at the binary path when [execvp]
    is called on it. *)
Theorem bootstrap_unlinks_binary_on_long_path
        (E : Env) (binary_path : string) (rest : list string) (w : World)
        (f : File) (files : gmap string File) :
  old_binary_path binary_path = binary_path ->
  mtime_of (fs w) binary_path < mtime_of (fs w) (source_path E) ->
  fs w !! binary_path = Some f ->
  rename_fault E binary_path (old_binary_path binary_path) (fs w) = false ->
  (forall b, realloc_ok E b = true) ->
  fork_fails E (<[old_binary_path binary_path := f]>
                  (delete binary_path (fs w))) = false ->
  child E [CC; source_path E; "-o"; binary_path]
        (<[old_binary_path binary_path := f]> (delete binary_path (fs w)))
  = (WExited 0, files) ->
  unlink_fault E binary_path files = false ->
  exists w' evs,
    outcome_world (go_build_urself E binary_path rest w) = Some w'
    /\ fs w' !! binary_path = None
    /\ trace w' = trace w ++ evs
    /\ In (Unlink binary_path) evs
    /\ In (Execvp binary_path (binary_path :: rest)) evs.
Proof.
  intros Hsame Hstale Hbin Hfault Hok Hfork Hchild Hunl.
  destruct (bootstrap_compiled E binary_path rest w f files
                               Hstale Hbin Hfault Hok Hfork Hchild)
    as (pre & _ & _ & Hrun).
  rewrite Hrun. rewrite !Hsame, Hunl.
  unfold bind at 1. unfold execvp. cbn zeta. rewrite fs_after, after_after.
  set (evs := _ ++ [Execvp binary_path (binary_path :: rest)]).
  assert (Hin : In (Unlink binary_path) evs
                /\ In (Execvp binary_path (binary_path :: rest)) evs).
  { unfold evs. split; apply in_or_app.
    - left. right. right. apply in_or_app. right. apply in_or_app. right.
      cbn. auto.
    - right. cbn. auto. }
  destruct (execvp_ok E binary_path (binary_path :: rest) _).
  - exists (after w (delete binary_path files) evs), evs. cbn.
    split; [reflexivity|]. split; [apply lookup_delete_eq|]. tauto.
  - unfold panic, eprintf. erewrite bind_Return by apply emit_after.
    unfold exit. rewrite fs_after, after_after.
    eexists. exists (evs ++ [Stderr (panic_text E 209 "How did we get here?")]).
    cbn [outcome_world]. split; [reflexivity|].
    split; [apply lookup_delete_eq|]. split; [reflexivity|].
    split; apply in_or_app; left; tauto.
Qed.

Lemma bootstrap_unlinks_binary_on_long_path_witness :
  exists w' evs,
    outcome_world (go_build_urself env_ok (long_path 1023) [] w_long) = Some w'
    /\ fs w' !! long_path 1023 = None
    /\ trace w' = trace w_long ++ evs
    /\ In (Unlink (long_path 1023)) evs
    /\ In (Execvp (long_path 1023) (long_path 1023 :: [])) evs.
Proof.
  apply (bootstrap_unlinks_binary_on_long_path
           env_ok (long_path 1023) [] w_long (mkFile 4 "tool")
           (write_last "object" [CC; "build.c"; "-o"; long_path 1023]
                       (<[old_binary_path (long_path 1023) := mkFile 4 "tool"]>
                          (delete (long_path 1023) (fs w_long))))).
  - vm_compute. reflexivity.
  - vm_compute. reflexivity.
  - vm_compute. reflexivity.
  - reflexivity.
  - reflexivity.
  - reflexivity.
  - reflexivity.
  - reflexivity.
Defined.

(** ** A second run *)

(** X16.  The tool run on a project in which nothing is to be done:
    when the build definition is not newer than the binary and the graph
    of [main] is settled, [main] returns 0 having spawned nothing and
    left the file system as it was; what it has written is the notice of
    the object file and then the notice of the program. *)
Theorem up_to_date_run_does_nothing
        (E : Env) (binary_path : string) (rest : list string) (w : World) :
  mtime_of (fs w) (source_path E) <= mtime_of (fs w) binary_path ->
  settled E (fs w) main_target = true ->
  exists evs,
    main E binary_path rest w = Return 0 (after w (fs w) evs)
    /\ spawns evs = []
    /\ visits evs = ["main2"; "main.c"; "main.o"; "main.c"]
    /\ stdout_text evs
       = "main.o Up to date!!!" +:+ newline
         +:+ "main2 Up to date!!!" +:+ newline.
Proof.
  intros Hfresh Hsettled.
  assert (Hgo : go_build_urself E binary_path rest w = Return tt w).
  { unfold go_build_urself, bind, get_file_mtime.
    assert ((mtime_of (fs w) (source_path E) <=? mtime_of (fs w) binary_path)
            = true) as -> by (apply Z.leb_le; lia).
    reflexivity. }
  destruct (build_target_settled E main_target w Hsettled)
    as (evs & Hrun & Hsp & Hv & Ho).
  exists evs. unfold main.
  erewrite bind_Return by apply Hgo.
  erewrite bind_Return by apply Hrun.
  split; [reflexivity|]. split; [exact Hsp|]. split; [exact Hv|].
  rewrite Ho. reflexivity.
Qed.

Lemma up_to_date_run_does_nothing_witness :
  exists evs,
    main env_ok "./build" [] w_built = Return 0 (after w_built (fs w_built) evs)
    /\ spawns evs = []
    /\ visits evs = ["main2"; "main.c"; "main.o"; "main.c"]
    /\ stdout_text evs
       = "main.o Up to date!!!" +:+ newline
         +:+ "main2 Up to date!!!" +:+ newline.
Proof.
  apply (up_to_date_run_does_nothing env_ok "./build" [] w_built).
  - vm_compute. discriminate.
  - vm_compute. reflexivity.
Defined.

(** ** Fatal ends *)

(** The bootstrap when the binary is renamed: up to [cmd_run]. *)
Lemma bootstrap_backed_up E (binary_path : string) (rest : list string) w
      (f : File) :
  mtime_of (fs w) binary_path < mtime_of (fs w) (source_path E) ->
  fs w !! binary_path = Some f ->
  rename_fault E binary_path (old_binary_path binary_path) (fs w) = false ->
  (forall b, realloc_ok E b = true) ->
  exists c,
    cmd_tokens c = Some [CC; source_path E; "-o"; binary_path]
    /\ 0 < count c
    /\ go_build_urself E binary_path rest w
       = (ok <-- cmd_run E c ;;
          (if ok =? 0 then
             rename E (old_binary_path binary_path) binary_path ;;; ret tt
           else ret tt) ;;;
          unlink E (old_binary_path binary_path) ;;;
          printf ("[INFO] Restarting " +:+ binary_path +:+ "..."
                  +:+ newline) ;;;
          execvp E binary_path (binary_path :: rest) ;;;
          panic (source_path E) 209 "How did we get here?")
           (after w (<[old_binary_path binary_path := f]>
                       (delete binary_path (fs w)))
                  (Stdout "[INFO] rebuilding"
                   :: Rename binary_path (old_binary_path binary_path)
                   :: (Realloc <$> block_sizes 0 4))).
Proof.
  intros Hstale Hbin Hfault Hok.
  set (old := old_binary_path binary_path) in *.
  set (toks := [CC; source_path E; "-o"; binary_path]) in *.
  set (fs1 := <[old := f]> (delete binary_path (fs w))) in *.
  rewrite bootstrap_stale by exact Hstale. fold old toks.
  assert (Hren : rename E binary_path old
                        (after w (fs w) [Stdout "[INFO] rebuilding"])
                 = Return 0 (after w fs1 [Stdout "[INFO] rebuilding";
                                          Rename binary_path old])).
  { unfold rename. rewrite fs_after, Hfault, Hbin. now rewrite after_after. }
  erewrite bind_Return by apply Hren. cbn [Z.eqb negb].
  set (w1 := after w fs1 [Stdout "[INFO] rebuilding"; Rename binary_path old]).
  destruct (append_loop_filled E [] toks Cmd_zero w1 Hok
                               ltac:(cbn; lia) filled_zero)
    as (c & Happ & Hcount & Hcap & Htok).
  cbn [app length] in Happ, Hcount, Hcap, Htok.
  exists c. split; [exact Htok|]. split; [rewrite Hcount; cbn; lia|].
  erewrite bind_Return by (cbn [cmd_internal_append]; apply Happ).
  unfold w1. now rewrite fs_after, after_after.
Qed.

(** X17.  A compiler ended by a signal during the bootstrap is fatal
    and nothing is put back: the tool exits with code 1 on the panic of
    the signal, without renaming the backup to the binary path and
    without unlinking it, in the file system the compiler left; unless
    the compiler touched it, the only copy of the tool is then at the
    backup path. *)
Theorem bootstrap_signal_leaves_backup
        (E : Env) (binary_path : string) (rest : list string) (w : World)
        (f : File) (sig : Z) (files : gmap string File) :
  mtime_of (fs w) binary_path < mtime_of (fs w) (source_path E) ->
  fs w !! binary_path = Some f ->
  rename_fault E binary_path (old_binary_path binary_path) (fs w) = false ->
  (forall b, realloc_ok E b = true) ->
  fork_fails E (<[old_binary_path binary_path := f]>
                  (delete binary_path (fs w))) = false ->
  child E [CC; source_path E; "-o"; binary_path]
        (<[old_binary_path binary_path := f]> (delete binary_path (fs w)))
  = (WSignaled sig, files) ->
  exists pre,
    Forall is_Stdout pre
    /\ go_build_urself E binary_path rest w
       = Exit 1
              (after w files
                     (Stdout "[INFO] rebuilding"
                      :: Rename binary_path (old_binary_path binary_path)
                      :: (Realloc <$> block_sizes 0 4) ++ pre
                      ++ [Spawn [CC; source_path E; "-o"; binary_path];
                          Stderr (panic_text E 168
                                    ("Build terminated with signal "
                                     +:+ pretty sig +:+ newline))])).
Proof.
  intros Hstale Hbin Hfault Hok Hfork Hchild.
  destruct (bootstrap_backed_up E binary_path rest w f Hstale Hbin Hfault Hok)
    as (c & Htok & Hpos & Hgo).
  rewrite Hgo. set (w2 := after w _ _).
  destruct (cmd_run_spawned E c _ w2 _ files Htok Hpos Hfork Hchild)
    as (pre & Hall & _ & Hrun).
  exists pre. split; [exact Hall|].
  unfold bind at 1. rewrite Hrun. unfold w2. rewrite after_after.
  unfold after_wait, panic, eprintf.
  erewrite bind_Return by apply emit_after.
  unfold exit. rewrite fs_after, after_after.
  cbn [app]. now rewrite <- !app_assoc.
Qed.

Lemma bootstrap_signal_leaves_backup_witness :
  exists pre,
    Forall is_Stdout pre
    /\ go_build_urself env_killed "./build" [] w_stale_tool
       = Exit 1
              (after w_stale_tool
                     (<[old_binary_path "./build" := mkFile 4 "tool"]>
                        (delete "./build" (fs w_stale_tool)))
                     (Stdout "[INFO] rebuilding"
                      :: Rename "./build" (old_binary_path "./build")
                      :: (Realloc <$> block_sizes 0 4) ++ pre
                      ++ [Spawn [CC; source_path env_killed; "-o"; "./build"];
                          Stderr (panic_text env_killed 168
                                    ("Build terminated with signal "
                                     +:+ pretty 9 +:+ newline))])).
Proof.
  apply (bootstrap_signal_leaves_backup
           env_killed "./build" [] w_stale_tool (mkFile 4 "tool") 9).
  - vm_compute. reflexivity.
  - vm_compute. reflexivity.
  - reflexivity.
  - reflexivity.
  - reflexivity.
  - reflexivity.
Defined.

(** X18.  When no process can be created for the compiler, the
    bootstrap is fatal after the binary has been moved away: the tool
    exits with code 1 on the panic of [fork], and with a backup path
    other than the binary path it leaves the tool at the backup path and
    nothing at the path it was called by. *)
Theorem bootstrap_fork_failure_leaves_backup
        (E : Env) (binary_path : string) (rest : list string) (w : World)
        (f : File) :
  mtime_of (fs w) binary_path < mtime_of (fs w) (source_path E) ->
  fs w !! binary_path = Some f ->
  rename_fault E binary_path (old_binary_path binary_path) (fs w) = false ->
  (forall b, realloc_ok E b = true) ->
  fork_fails E (<[old_binary_path binary_path := f]>
                  (delete binary_path (fs w))) = true ->
  old_binary_path binary_path <> binary_path ->
  exists w',
    go_build_urself E binary_path rest w = Exit 1 w'
    /\ fs w' !! binary_path = None
    /\ fs w' !! old_binary_path binary_path = Some f
    /\ spawns (trace w') = spawns (trace w).
Proof.
  intros Hstale Hbin Hfault Hok Hfork Hne.
  destruct (bootstrap_backed_up E binary_path rest w f Hstale Hbin Hfault Hok)
    as (c & Htok & Hpos & Hgo).
  rewrite Hgo. set (w2 := after w _ _).
  destruct (cmd_run_fork_failed E c _ w2 Htok Hpos Hfork)
    as (pre & Hall & _ & Hrun).
  unfold bind at 1. rewrite Hrun. unfold w2. rewrite fs_after, after_after.
  eexists. split; [reflexivity|]. rewrite fs_after, trace_after.
  split; [|split].
  - rewrite lookup_insert_ne by exact Hne. apply lookup_delete_eq.
  - apply lookup_insert_eq.
  - assert (Hre : forall l, spawns (Realloc <$> l) = [])
      by (induction l; cbn; auto).
    rewrite !spawns_app. cbn [spawns].
    rewrite Hre, (spawns_Stdout pre Hall). cbn. now rewrite app_nil_r.
Qed.

Lemma bootstrap_fork_failure_leaves_backup_witness :
  exists w',
    go_build_urself env_nofork "./build" [] w_stale_tool = Exit 1 w'
    /\ fs w' !! "./build" = None
    /\ fs w' !! old_binary_path "./build" = Some (mkFile 4 "tool")
    /\ spawns (trace w') = spawns (trace w_stale_tool).
Proof.
  apply (bootstrap_fork_failure_leaves_backup
           env_nofork "./build" [] w_stale_tool (mkFile 4 "tool")).
  - vm_compute. reflexivity.
  - vm_compute. reflexivity.
  - reflexivity.
  - reflexivity.
  - reflexivity.
  - vm_compute. discriminate.
Defined.

(** X19.  The walk stops at the first dependency that ends the tool:
    when the build of a dependency exits, the build of the dependent
    exits with the same code in the same world; no later dependency is
    entered and nothing of the dependent itself is run or written. *)
Theorem fatal_dependency_ends_the_walk
        (E : Env) (t : Target) (pre : list Target) (d : Target)
        (post : list Target) (w w1 w2 : World) (nr : bool) (code : Z) :
  deps t = Some (pre ++ d :: post) ->
  before_dep E t pre w = Return nr w1 ->
  build_target E d w1 = Exit code w2 ->
  build_target E t w = Exit code w2.
Proof.
  intros Hdeps Hpre Hd.
  rewrite build_target_unfold. unfold before_dep in Hpre.
  erewrite bind_Return by apply emit_after.
  erewrite bind_Return in Hpre by apply emit_after.
  unfold get_file_mtime at 1. unfold bind at 1.
  unfold get_file_mtime at 1 in Hpre. unfold bind at 1 in Hpre.
  rewrite fs_after in *.
  set (mtime := mtime_of (fs w) (output t)) in *.
  destruct (stale_on_entry_eval E (cmd t) mtime
                                (after w (fs w) [Visit (output t)]))
    as (b & Hb & _).
  erewrite bind_Return by apply Hb.
  erewrite bind_Return in Hpre by apply Hb.
  rewrite Hdeps. cbn [walk_deps].
  unfold bind at 1. rewrite build_deps_app.
  erewrite bind_Return by apply Hpre.
  unfold bind at 1. now rewrite Hd.
Qed.

Lemma fatal_dependency_ends_the_walk_witness :
  build_target env_fail dia_d w_diamond
  = Exit 1 (after w_diamond
                  (<["b.o" := mkFile 2 "partial"]> (fs w_diamond))
                  ([Visit "d"; Visit "b.o"; Visit "a.h"; Stdout "[CMD] ";
                    Stdout "gcc"; Stdout " "; Stdout "-c"; Stdout " ";
                    Stdout "b.c"; Stdout " "; Stdout "-o"; Stdout " ";
                    Stdout "b.o"; Stdout newline]
                   ++ [Spawn ["gcc"; "-c"; "b.c"; "-o"; "b.o"];
                       Stderr ("Command failed with exit code 1" +:+ newline);
                       Stderr (panic_text env_fail 254
                                 ("Failed to build b.o" +:+ newline))])).
Proof.
  apply (fatal_dependency_ends_the_walk
           env_fail dia_d [] dia_b [dia_c] w_diamond
           (after w_diamond (fs w_diamond) [Visit "d"]) _ true 1).
  - reflexivity.
  - vm_compute. reflexivity.
  - vm_compute. reflexivity.
Defined.

(** ** The bootstrap on a path that fills the buffer *)

(** Evaluation of a chain of goals in which each one fixes the world the
    next one starts from. *)
Ltac evaluate_in_turn := conjuncts; (vm_compute; reflexivity).


(** ** A target reached along two paths *)

Lemma forallb_agree {A} (f g : A -> bool) (l : list A) :
  (forall x, In x l -> f x = g x) -> forallb f l = forallb g l.
Proof.
  induction l as [|x l IH]; intros H; [reflexivity|]. cbn.
  rewrite (H x) by now left. rewrite IH; [reflexivity|].
  intros y Hy. apply H. now right.
Qed.

Lemma output_in_walk (t : Target) : In (output t) (walk t).
Proof. destruct t. now left. Qed.

(** Whether a graph is settled is read from the time stamps of the build
    definition and of the outputs of the graph, and from nothing else. *)
Lemma settled_agree E E' (f1 f2 : gmap string File) (t : Target) :
  source_path E' = source_path E ->
  (forall p, In p (source_path E :: walk t) -> mtime_of f2 p = mtime_of f1 p) ->
  settled E' f2 t = settled E f1 t.
Proof.
  intros Hsrc. induction t as [out ds c IH] using Target_deps_ind.
  intros Hm. cbn [settled].
  assert (Hout : mtime_of f2 out = mtime_of f1 out)
    by (apply Hm; right; now left).
  assert (Hs : mtime_of f2 (source_path E') = mtime_of f1 (source_path E))
    by (rewrite Hsrc; apply Hm; now left).
  rewrite Hout, Hs.
  assert (Hsub : forall l, ds = Some l ->
                 forall d, In d l -> forall p, In p (walk d) ->
                 mtime_of f2 p = mtime_of f1 p).
  { intros l -> d Hd p Hp. apply Hm. right. right.
    apply in_flat_map. now exists d. }
  destruct ds as [l|]; [|reflexivity].
  assert (forallb (fun d => mtime_of f2 (output d) <=? mtime_of f1 out) l
          = forallb (fun d => mtime_of f1 (output d) <=? mtime_of f1 out) l)
    as ->.
  { apply forallb_agree. intros d Hd.
    now rewrite (Hsub l eq_refl d Hd (output d) (output_in_walk d)). }
  assert (forallb (settled E' f2) l = forallb (settled E f1) l) as ->;
    [|reflexivity].
  apply forallb_agree. intros d Hd. rewrite Forall_forall in IH.
  apply IH; [now apply list_elem_of_In|].
  intros p [<-|Hp]; [apply Hm; now left|].
  exact (Hsub l eq_refl d Hd p Hp).
Qed.

(** C9, as the code has it.  In a diamond, [d] over [b] and [c], both
    over [a], a build of [d] that returns has entered [a] once for each
    of the two paths: the targets entered are [d], [b], the walk of [a],
    [c], the walk of [a] again.  Nothing is remembered from one visit to
    the next, each decides from the time stamps it reads.  A visit that
    finds the output of [a] without time stamp or, [a] having a command,
    older than the build definition takes the branch of the rebuild once
    the dependencies are built, as often as it is made.  And once the
    graph of [a] is settled, every visit made while the time stamps of
    the build definition and of the outputs of that graph are the same,
    whatever else has been written since and whatever the children of
    the environment do, returns having spawned nothing and leaves the
    file system as it finds it. *)
Theorem diamond_is_walked_once_per_path
        (E : Env) (a b c d : Target) (w w' : World) :
  deps b = Some [a] ->
  deps c = Some [a] ->
  deps d = Some [b; c] ->
  build_target E d w = Return tt w' ->
  visits (trace w')
  = visits (trace w)
    ++ output d :: output b :: walk a ++ output c :: walk a
  /\ (forall w1,
         mtime_of (fs w1) (output a) = 0
         \/ (is_Some (cmd a)
             /\ mtime_of (fs w1) (output a)
                < mtime_of (fs w1) (source_path E)) ->
         build_target E a w1
         = (walk_deps (build_target E) (mtime_of (fs w1) (output a))
                      (deps a) true ;;;
            finish_target E (output a) (cmd a)
                          (mtime_of (fs w1) (output a)) true)
             (after w1 (fs w1) [Visit (output a)]))
  /\ (forall E' w1 w2,
         source_path E' = source_path E ->
         (forall p, In p (source_path E :: walk a) ->
                    mtime_of (fs w2) p = mtime_of (fs w1) p) ->
         settled E (fs w1) a = true ->
         exists evs,
           build_target E' a w2 = Return tt (after w2 (fs w2) evs)
           /\ spawns evs = []
           /\ visits evs = walk a
           /\ stdout_text evs = notices a).
Proof.
  intros Hb Hc Hd Hrun. split; [|split].
  - rewrite (enters_build_target E d w tt w' Hrun).
    destruct d as [od dd cd], b as [ob db cb], c as [oc dc cc].
    cbn in Hb, Hc, Hd. subst. cbn [walk output flat_map].
    now rewrite !app_nil_r.
  - intros w1. apply build_target_stale.
  - intros E' w1 w2 Hsrc Hm Hs. apply build_target_settled.
    now rewrite (settled_agree E E' (fs w1) (fs w2) a Hsrc Hm).
Qed.

Lemma diamond_is_walked_once_per_path_witness :
  visits (trace w_diamond_built)
  = visits (trace w_diamond)
    ++ output dia_d :: output dia_b :: walk dia_a
    ++ output dia_c :: walk dia_a.
Proof.
  apply (diamond_is_walked_once_per_path
           env_ok dia_a dia_b dia_c dia_d w_diamond w_diamond_built).
  - reflexivity.
  - reflexivity.
  - reflexivity.
  - vm_compute. reflexivity.
Defined.

(** C9, as the specification has it, fails, in each of its three parts.
    With a compiler that exits with 1 the build of the diamond ends in
    the command of [dia_b], and [dia_a] has been entered once.  Over a
    target whose command never writes its output the build of the
    diamond runs that command twice, and a second visit right after the
    first changes the file system again: the effect is not idempotent.
    And the two orders of the dependencies of the top leave different
    file systems: the object built first is the older one. *)
Lemma diamond_not_twice_nor_idempotent_nor_order_free :
  (deps dia_b = Some [dia_a]
   /\ deps dia_c = Some [dia_a]
   /\ deps dia_d = Some [dia_b; dia_c]
   /\ exists w',
       build_target env_fail dia_d w_diamond = Exit 1 w'
       /\ visits (trace w') = ["d"; "b.o"; "a.h"]
       /\ count_occ string_dec (visits (trace w')) (output dia_a) = 1%nat)
  /\ (deps log_b = Some [log_a]
      /\ deps log_c = Some [log_a]
      /\ deps log_d = Some [log_b; log_c]
      /\ exists w' w1 w2,
          build_target env_ok log_d w_diamond = Return tt w'
          /\ spawns (trace w')
             = [["sh"; "check.sh"; "log"]; ["gcc"; "-c"; "b.c"; "-o"; "b.o"];
                ["sh"; "check.sh"; "log"]; ["gcc"; "-c"; "c.c"; "-o"; "c.o"];
                ["gcc"; "b.o"; "c.o"; "-o"; "d"]]
          /\ build_target env_ok log_a w_diamond = Return tt w1
          /\ build_target env_ok log_a w1 = Return tt w2
          /\ fs w1 !! "log" = Some (mkFile 2 "object")
          /\ fs w2 !! "log" = Some (mkFile 3 "object"))
  /\ (deps dia_d_swapped = Some [dia_c; dia_b]
      /\ exists wa wb,
          build_target env_ok dia_d w_diamond = Return tt wa
          /\ build_target env_ok dia_d_swapped w_diamond = Return tt wb
          /\ fs wa !! "b.o" = Some (mkFile 2 "object")
          /\ fs wb !! "b.o" = Some (mkFile 3 "object")
          /\ fs wa !! "c.o" = Some (mkFile 3 "object")
          /\ fs wb !! "c.o" = Some (mkFile 2 "object")).
Proof.
  split; [|split].
  - split; [reflexivity|]. split; [reflexivity|]. split; [reflexivity|].
    eexists. evaluate_in_turn.
  - split; [reflexivity|]. split; [reflexivity|]. split; [reflexivity|].
    do 3 eexists. evaluate_in_turn.
  - split; [reflexivity|]. do 2 eexists. evaluate_in_turn.
Qed.
